(** * Eko-Kampus mobile client: session token, API client and form handlers

    A shallow embedding of the TypeScript sources of the mobile client:

    - [Js]: the JavaScript string primitives the handlers call
      ([trim], [toLowerCase], [split], truthiness, template interpolation);
    - [AsyncStorage]: the key-value store the token is persisted in;
    - [ApiClient]: the axios instance with its request interceptor
      (api/client.ts);
    - [AuthContext]: [AuthProvider] with [login] and [logout]
      (context/AuthContext.tsx);
    - [LoginScreen], [RegisterScreen], [ProfileScreen], [LeaderboardScreen],
      [HomeScreen], [DetectiveScreen]: the request each screen builds and the
      handlers [handleRegister] and [submitReport];
    - [LoginForm], [ProfileForm], [HomeForm], [DetectiveForm]: [handleLogin],
      [handleLogout], the photo handlers and each form as the sequence of
      what the user does on it;
    - [LeaderboardView], [LeaderboardList], [BountyView]: [avatarColor],
      [initials], the rank cell, the fetch of the list and what a task card
      shows.

    React state is a record per component, a handler is a function from the
    state (and from the way the awaited promise settles) to the next state
    and the list of effects it performed, in program order. *)

From Stdlib Require Import Ascii String.
From stdpp Require Import gmap strings list fin_maps.

Open Scope string_scope.

(** ** JavaScript strings and values *)

Module Js.

(** A JavaScript string is a sequence of UTF-16 code units; [string] holds
    one [ascii] per code unit, which covers the code units below 256
    (Basic Latin and Latin-1 Supplement). *)

(** [WhiteSpace] and [LineTerminator] code points below 256: TAB, LF, VT,
    FF, CR, SP and NBSP. *)
Definition isWhiteSpace (c : ascii) : bool :=
  let n := nat_of_ascii c in
  (((9 <=? n) && (n <=? 13)) || (n =? 32) || (n =? 160))%nat.

Fixpoint trimStart (s : string) : string :=
  match s with
  | EmptyString => EmptyString
  | String c s' => if isWhiteSpace c then trimStart s' else s
  end.

Fixpoint trimEnd (s : string) : string :=
  match s with
  | EmptyString => EmptyString
  | String c s' =>
      match trimEnd s' with
      | EmptyString => if isWhiteSpace c then EmptyString else String c EmptyString
      | r => String c r
      end
  end.

(** [s.trim()] *)
Definition trim (s : string) : string := trimEnd (trimStart s).

(** Lower-case mapping of one code unit below 256: A-Z, and the Latin-1
    capitals U+00C0..U+00DE except the multiplication sign U+00D7. *)
Definition toLowerCase_unit (c : ascii) : ascii :=
  let n := nat_of_ascii c in
  if (((65 <=? n) && (n <=? 90))
      || ((192 <=? n) && (n <=? 222) && negb (n =? 215)))%nat
  then ascii_of_nat (n + 32)%nat else c.

(** [s.toLowerCase()] *)
Fixpoint toLowerCase (s : string) : string :=
  match s with
  | EmptyString => EmptyString
  | String c s' => String (toLowerCase_unit c) (toLowerCase s')
  end.

(** [s.split(sep)] for a one-character separator: the pieces between the
    occurrences of [sep], in order; never the empty array. *)
Fixpoint split (sep : ascii) (s : string) : list string :=
  match s with
  | EmptyString => [EmptyString]
  | String c s' =>
      if Ascii.eqb c sep then EmptyString :: split sep s'
      else match split sep s' with
           | piece :: pieces => String c piece :: pieces
           | [] => [String c EmptyString]
           end
  end.

(** [a[0]] on an array of strings that is known not to be empty. *)
Definition first (a : list string) : string := default EmptyString (head a).

(** Truthiness of a string: only the empty string is falsy. *)
Definition truthy (s : string) : bool := negb (String.eqb s "").

(** Truthiness of a [string | null]. *)
Definition truthy_or_null (v : option string) : bool :=
  match v with
  | Some s => truthy s
  | None => false
  end.

(** [`${v}`] for a [string | null]: [null] interpolates as the four
    characters n, u, l, l. *)
Definition ToString (v : option string) : string :=
  match v with
  | Some s => s
  | None => "null"
  end.

(** How an awaited promise settles. *)
Inductive settled (E A : Type) : Type :=
| fulfilled (a : A)
| rejected (e : E).
Arguments fulfilled {E A} a.
Arguments rejected {E A} e.

End Js.

(** ** AsyncStorage *)

Module AsyncStorage.
Import Js.

(** The persistent store is a finite map from keys to string values.  Each
    operation is asynchronous and either resolves or rejects; which of the
    two happens is decided by the storage medium, an input of the model.
    A rejected operation leaves the stored values as they were. *)
Inductive medium : Set := Healthy | Faulty.

Inductive storage_error : Set := StorageFailure.

Definition getItem (m : medium) (key : string) (st : gmap string string)
  : settled storage_error (option string) :=
  match m with
  | Healthy => fulfilled (st !! key)
  | Faulty => rejected StorageFailure
  end.

Definition setItem (m : medium) (key value : string) (st : gmap string string)
  : gmap string string * settled storage_error unit :=
  match m with
  | Healthy => (<[key := value]> st, fulfilled tt)
  | Faulty => (st, rejected StorageFailure)
  end.

Definition removeItem (m : medium) (key : string) (st : gmap string string)
  : gmap string string * settled storage_error unit :=
  match m with
  | Healthy => (delete key st, fulfilled tt)
  | Faulty => (st, rejected StorageFailure)
  end.

End AsyncStorage.

(** ** api/client.ts *)

Module ApiClient.
Import Js AsyncStorage.

(** The part of an axios request configuration the client code touches.
    [B] is the type of the request body. *)
Record config (B : Type) : Type := mkConfig {
  method : string;
  url : string;
  headers : gmap string string;
  data : option B;
}.
Arguments mkConfig {B} _ _ _ _.
Arguments method {B} _.
Arguments url {B} _.
Arguments headers {B} _.
Arguments data {B} _.

(** [apiClient.get(url, { headers })] *)
Definition get {B : Type} (u : string) (h : gmap string string) : config B :=
  mkConfig "get" u h None.

(** [apiClient.post(url, body)] *)
Definition post {B : Type} (u : string) (body : B) : config B :=
  mkConfig "post" u ∅ (Some body).

(** The request interceptor: it reads the key 'userToken' from AsyncStorage
    and, when the value is truthy, assigns [config.headers.Authorization]. *)
Definition request_interceptor {B : Type} (m : medium)
    (st : gmap string string) (c : config B)
  : settled storage_error (config B) :=
  match getItem m "userToken" st with
  | rejected e => rejected e
  | fulfilled token =>
      match token with
      | Some t =>
          if truthy t
          then fulfilled
                 (mkConfig (method c) (url c)
                    (<["Authorization" := "Bearer " +:+ t]> (headers c))
                    (data c))
          else fulfilled c
      | None => fulfilled c
      end
  end.

(** The configuration that goes on the wire: the caller's configuration
    after the request interceptor; a rejected interceptor sends nothing. *)
Definition outbound {B : Type} (m : medium) (st : gmap string string)
    (c : config B) : settled storage_error (config B) :=
  request_interceptor m st c.

(** The value of the Authorization header of a configuration, if any. *)
Definition authorization {B : Type} (c : config B) : option string :=
  headers c !! "Authorization".

End ApiClient.

(** ** context/AuthContext.tsx *)

Module AuthContext.
Import Js AsyncStorage.

Definition TOKEN_KEY : string := "userToken".

(** The two state cells of [AuthProvider], as the context value exposes
    them. *)
Record AuthContextData : Type := mkAuth {
  userToken : option string;
  isLoading : bool;
}.

(** The provider together with the store it persists into. *)
Record world : Type := mkWorld {
  storage : gmap string string;
  context : AuthContextData;
}.

(** First render: [useState(null)], [useState(true)]. *)
Definition mount (st : gmap string string) : world :=
  mkWorld st (mkAuth None true).

(** [.then((token) => setUserToken(token))] of the mount effect: skipped
    when the read rejects. *)
Definition init_then (m : medium) (w : world) : world :=
  match getItem m TOKEN_KEY (storage w) with
  | fulfilled token => mkWorld (storage w) (mkAuth token (isLoading (context w)))
  | rejected _ => w
  end.

(** [.finally(() => setIsLoading(false))] *)
Definition init_finally (w : world) : world :=
  mkWorld (storage w) (mkAuth (userToken (context w)) false).

(** The mount effect run to completion. *)
Definition init (m : medium) (w : world) : world :=
  init_finally (init_then m w).

Definition login (m : medium) (token : string) (w : world)
  : world * settled storage_error unit :=
  match setItem m TOKEN_KEY token (storage w) with
  | (st', fulfilled _) =>
      (mkWorld st' (mkAuth (Some token) (isLoading (context w))), fulfilled tt)
  | (st', rejected e) => (mkWorld st' (context w), rejected e)
  end.

Definition logout (m : medium) (w : world)
  : world * settled storage_error unit :=
  match removeItem m TOKEN_KEY (storage w) with
  | (st', fulfilled _) =>
      (mkWorld st' (mkAuth None (isLoading (context w))), fulfilled tt)
  | (st', rejected e) => (mkWorld st' (context w), rejected e)
  end.

(** The three session states of the specification (section 4.3), and the
    context value that stands for each. *)
Inductive SessionState : Type :=
| loading
| authenticated (token : string)
| unauthenticated.

Definition expose (v : SessionState) : AuthContextData :=
  match v with
  | loading => mkAuth None true
  | authenticated t => mkAuth (Some t) false
  | unauthenticated => mkAuth None false
  end.

(** What a consumer of the context may call once the provider is
    mounted and its mount effect has run. *)
Inductive action : Type :=
| Login (m : medium) (token : string)
| Logout (m : medium).

Definition act (w : world) (a : action) : world :=
  match a with
  | Login m t => fst (login m t w)
  | Logout m => fst (logout m w)
  end.

Definition run (acts : list action) (w : world) : world :=
  fold_left act acts w.

(** A session: mount over the store [st0], the mount effect with medium
    [m], then the calls [acts], each run to completion. *)
Definition session (st0 : gmap string string) (m : medium)
    (acts : list action) : world :=
  run acts (init m (mount st0)).

(** The states of a session from the end of the mount effect on: the
    state after the mount effect and the state after each call. *)
Fixpoint states_from (w : world) (acts : list action) : list world :=
  w :: match acts with
       | [] => []
       | a :: acts' => states_from (act w a) acts'
       end.

(** Every state a consumer may see during a session: the first render,
    the state between the two callbacks of the mount effect (after
    [setUserToken], before [setIsLoading(false)]), the state after the
    mount effect, and the state after each call. *)
Definition history (st0 : gmap string string) (m : medium)
    (acts : list action) : list world :=
  mount st0 :: init_then m (mount st0)
    :: states_from (init m (mount st0)) acts.

(** The specification's three-valued reading of a context value. *)
Definition observe (c : AuthContextData) : SessionState :=
  if isLoading c then loading
  else match userToken c with
       | Some t => authenticated t
       | None => unauthenticated
       end.

(** In a session the token held in memory is the persisted one whenever
    there is one in memory; when the mount effect could read the store the
    two agree altogether. *)
Definition cached_is_stored (w : world) : Prop :=
  ∀ t, userToken (context w) = Some t → storage w !! TOKEN_KEY = Some t.

Definition cache_agrees (w : world) : Prop :=
  userToken (context w) = storage w !! TOKEN_KEY.

End AuthContext.

(** ** What a handler does besides updating its state *)

Module Ui.
Import Js.

(** The alerts the handlers raise.  The wording of each is fixed in the
    source and plays no part here; an alert is identified by its place. *)
Inductive notice : Type :=
| EnterBinId            (* HomeScreen: title 'Hata', asks for the bin id *)
| ReportSent            (* HomeScreen: the waste report was sent *)
| IssueReported         (* DetectiveScreen: the issue was reported *)
| FillAllFields         (* RegisterScreen: title 'Hata', a field is missing *)
| Registered            (* RegisterScreen: account created, go to Login *)
| RegisterFailed        (* RegisterScreen: fixed text, no payload to show *)
| SomethingWentWrong    (* Home and Detective: fixed text, no payload *)
| ServerSaid (payload : string).
                        (* title 'Hata', the rendered error.response.data *)

(** A rejected API call: [error.response.data] when there is a truthy one,
    already rendered as text (by [JSON.stringify], or by joining the
    values for the registration form). *)
Record api_error : Type := mkApiError {
  response_data : option string;
}.

Inductive effect (B : Type) : Type :=
| Alert (n : notice)
| Request (c : ApiClient.config B)
| ConsoleError.
Arguments Alert {B} n.
Arguments Request {B} c.
Arguments ConsoleError {B}.

Definition is_request {B : Type} (e : effect B) : bool :=
  match e with
  | Request _ => true
  | _ => false
  end.

(** The calls to [apiClient] among the effects of a handler. *)
Definition network_calls {B : Type} (es : list (effect B))
  : list (effect B) := filter (λ e, is_request e = true) es.

End Ui.

(** ** screens/LoginScreen.tsx *)

Module LoginScreen.
Import Js.

Record Credentials : Type := mkCredentials {
  email : string;
  password : string;
}.

(** The call of [handleLogin]: [apiClient.post('auth/login/', ...)]. *)
Definition login_request (email_input password_input : string)
  : ApiClient.config Credentials :=
  ApiClient.post "auth/login/"
    (mkCredentials (toLowerCase (trim email_input)) password_input).

End LoginScreen.

(** ** screens/ProfileScreen.tsx *)

Module ProfileScreen.
Import Js.

(** The call of the mount effect:
    [apiClient.get('auth/me/', { headers: { Authorization: `Bearer ${userToken}` } })]. *)
Definition profile_request (userToken : option string) : ApiClient.config unit :=
  ApiClient.get "auth/me/"
    {["Authorization" := "Bearer " +:+ ToString userToken]}.

End ProfileScreen.

(** ** screens/LeaderboardScreen.tsx *)

Module LeaderboardScreen.
Import Js.

(** The call of [fetchLeaderboard]. *)
Definition fetchLeaderboard (userToken : option string) : ApiClient.config unit :=
  ApiClient.get "auth/leaderboard/"
    {["Authorization" := "Bearer " +:+ ToString userToken]}.

End LeaderboardScreen.

(** ** screens/RegisterScreen.tsx *)

Module RegisterScreen.
Import Js Ui.

Record State : Type := mkState {
  firstName : string;
  lastName : string;
  email : string;
  password : string;
  loading : bool;
}.

Definition setLoading (b : bool) (s : State) : State :=
  mkState (firstName s) (lastName s) (email s) (password s) b.

Record RegisterBody : Type := mkBody {
  first_name : string;
  last_name : string;
  body_email : string;
  username : string;
  body_password : string;
}.

(** The object literal posted to 'auth/register/'. *)
Definition register_body (s : State) : RegisterBody :=
  mkBody (trim (firstName s))
         (trim (lastName s))
         (toLowerCase (trim (email s)))
         (first (split "@" (toLowerCase (trim (email s)))))
         (password s).

Definition handleRegister (response : settled api_error unit) (s : State)
  : State * list (effect RegisterBody) :=
  if negb (truthy (trim (firstName s)))
     || negb (truthy (trim (lastName s)))
     || negb (truthy (trim (email s)))
     || negb (truthy (password s))
  then (s, [Alert FillAllFields])
  else
    let s1 := setLoading true s in
    let call := Request (ApiClient.post "auth/register/" (register_body s)) in
    match response with
    | fulfilled _ => (setLoading false s1, [call; Alert Registered])
    | rejected error =>
        let message :=
          match response_data error with
          | Some data => ServerSaid data
          | None => RegisterFailed
          end in
        (setLoading false s1, [call; Alert message])
    end.

End RegisterScreen.

(** ** screens/HomeScreen.tsx *)

Module HomeScreen.
Import Js Ui.

Definition WASTE_CATEGORIES : list string :=
  ["PLASTIC"; "PAPER"; "GLASS"; "ORGANIC"].

Record State : Type := mkState {
  binId : string;
  wasteCategory : string;
  loading : bool;
  imageUri : option string;
  imageBase64 : option string;
}.

(** The [useState] defaults. *)
Definition initial : State := mkState "" "PLASTIC" false None None.

Definition setBinId (v : string) (s : State) : State :=
  mkState v (wasteCategory s) (loading s) (imageUri s) (imageBase64 s).
Definition setWasteCategory (v : string) (s : State) : State :=
  mkState (binId s) v (loading s) (imageUri s) (imageBase64 s).
Definition setLoading (v : bool) (s : State) : State :=
  mkState (binId s) (wasteCategory s) v (imageUri s) (imageBase64 s).
Definition setImageUri (v : option string) (s : State) : State :=
  mkState (binId s) (wasteCategory s) (loading s) v (imageBase64 s).
Definition setImageBase64 (v : option string) (s : State) : State :=
  mkState (binId s) (wasteCategory s) (loading s) (imageUri s) v.

Record ReportBody : Type := mkBody {
  bin : string;
  waste_category : string;
  verification_method : string;
  latitude : string;
  longitude : string;
  client_timestamp : string;
  photo_base64 : option string;
}.

(** The object literal posted to 'reports/create/'; [now] is
    [new Date().toISOString()]. *)
Definition report_body (now : string) (s : State) : ReportBody :=
  mkBody (trim (binId s))
         (wasteCategory s)
         "QR"
         "36.8969"
         "30.6553"
         now
         (imageBase64 s).

Definition submitReport (now : string) (response : settled api_error unit)
    (s : State) : State * list (effect ReportBody) :=
  if negb (truthy (trim (binId s)))
  then (s, [Alert EnterBinId])
  else
    let s1 := setLoading true s in
    let call := Request (ApiClient.post "reports/create/" (report_body now s)) in
    match response with
    | fulfilled _ =>
        let s2 := setImageBase64 None (setImageUri None (setBinId "" s1)) in
        (setLoading false s2, [call; Alert ReportSent])
    | rejected error =>
        let message :=
          match response_data error with
          | Some data => ServerSaid data
          | None => SomethingWentWrong
          end in
        (setLoading false s1, [call; Alert message])
    end.

(** The draft of a waste report: what the user has entered so far. *)
Definition draft (s : State) : string * string * option string * option string :=
  (binId s, wasteCategory s, imageUri s, imageBase64 s).

End HomeScreen.

(** ** screens/DetectiveScreen.tsx *)

Module DetectiveScreen.
Import Js Ui.

Section Screen.

(** Coordinates are JavaScript numbers.  Their arithmetic is left out: the
    type of numbers and [Number(x.toFixed(6))] are parameters. *)
Context {Number : Type} (toFixed6 : Number → Number).

Record Coordinate : Type := mkCoordinate {
  latitude : Number;
  longitude : Number;
}.

Record DetectiveReportItem : Type := mkItem {
  id : string;
  item_latitude : Number;
  item_longitude : Number;
  item_problem_type : string;
  problem_type_display : string;
  item_description : string;
  photo : option string;
  status : string;
}.

Record State : Type := mkState {
  selectedLocation : option Coordinate;
  userLocation : option Coordinate;
  reports : list DetectiveReportItem;
  modalVisible : bool;
  description : string;
  imageUri : string;
  imageBase64 : string;
  loading : bool;
}.

(** The [useState] defaults. *)
Definition initial : State := mkState None None [] false "" "" "" false.

Definition setSelectedLocation (v : option Coordinate) (s : State) : State :=
  mkState v (userLocation s) (reports s) (modalVisible s) (description s)
          (imageUri s) (imageBase64 s) (loading s).
Definition setReports (v : list DetectiveReportItem) (s : State) : State :=
  mkState (selectedLocation s) (userLocation s) v (modalVisible s)
          (description s) (imageUri s) (imageBase64 s) (loading s).
Definition setModalVisible (v : bool) (s : State) : State :=
  mkState (selectedLocation s) (userLocation s) (reports s) v (description s)
          (imageUri s) (imageBase64 s) (loading s).
Definition setDescription (v : string) (s : State) : State :=
  mkState (selectedLocation s) (userLocation s) (reports s) (modalVisible s) v
          (imageUri s) (imageBase64 s) (loading s).
Definition setImageUri (v : string) (s : State) : State :=
  mkState (selectedLocation s) (userLocation s) (reports s) (modalVisible s)
          (description s) v (imageBase64 s) (loading s).
Definition setImageBase64 (v : string) (s : State) : State :=
  mkState (selectedLocation s) (userLocation s) (reports s) (modalVisible s)
          (description s) (imageUri s) v (loading s).
Definition setLoading (v : bool) (s : State) : State :=
  mkState (selectedLocation s) (userLocation s) (reports s) (modalVisible s)
          (description s) (imageUri s) (imageBase64 s) v.

Record IssueBody : Type := mkBody {
  body_latitude : Number;
  body_longitude : Number;
  body_description : string;
  problem_type : string;
  photo_base64 : string;
}.

(** The body of 'GET detective/reports/': a page with a [results] field,
    or the bare list; the handler takes [data.results ?? data]. *)
Inductive reports_payload : Type :=
| Page (results : list DetectiveReportItem)
| Bare (items : list DetectiveReportItem).

Definition results_or_data (p : reports_payload) : list DetectiveReportItem :=
  match p with
  | Page results => results
  | Bare items => items
  end.

Definition reports_request : ApiClient.config IssueBody :=
  ApiClient.get "detective/reports/" ∅.

Definition fetchReports (response : settled api_error reports_payload)
    (s : State) : State * list (effect IssueBody) :=
  match response with
  | fulfilled payload =>
      (setReports (results_or_data payload) s, [Request reports_request])
  | rejected _ => (s, [Request reports_request; ConsoleError])
  end.

Definition closeModal (s : State) : State :=
  setImageBase64 "" (setImageUri "" (setDescription "" (setModalVisible false s))).

(** The object literal posted to 'detective/reports/'. *)
Definition issue_body (location : Coordinate) (s : State) : IssueBody :=
  mkBody (toFixed6 (latitude location))
         (toFixed6 (longitude location))
         (description s)
         "OTHER"
         (imageBase64 s).

(** [response] settles the POST; [refetch] settles the GET that
    [fetchReports()] starts after a successful POST. *)
Definition submitReport (response : settled api_error unit)
    (refetch : settled api_error reports_payload) (s : State)
  : State * list (effect IssueBody) :=
  match selectedLocation s with
  | None => (s, [])
  | Some location =>
      let s1 := setLoading true s in
      let call := Request (ApiClient.post "detective/reports/" (issue_body location s)) in
      match response with
      | fulfilled _ =>
          let s2 := setSelectedLocation None (closeModal s1) in
          let '(s3, fetched) := fetchReports refetch s2 in
          (setLoading false s3, call :: Alert IssueReported :: fetched)
      | rejected error =>
          let message :=
            match response_data error with
            | Some data => ServerSaid data
            | None => SomethingWentWrong
            end in
          (setLoading false s1, [call; Alert message])
      end
  end.

(** The draft of an issue report. *)
Definition draft (s : State) : option Coordinate * string * string * string :=
  (selectedLocation s, description s, imageUri s, imageBase64 s).

End Screen.

Arguments Coordinate : clear implicits.
Arguments DetectiveReportItem : clear implicits.
Arguments State : clear implicits.
Arguments IssueBody : clear implicits.
Arguments reports_payload : clear implicits.

End DetectiveScreen.

(** ** Effects of the handlers below *)

Module Fx.

(** What a handler did, with the notices of its own screen: an alert, a
    call to [apiClient], or a [console.error]. *)
Inductive event (N B : Type) : Type :=
| Notify (n : N)
| Call (c : ApiClient.config B)
| Log.
Arguments Notify {N B} n.
Arguments Call {N B} c.
Arguments Log {N B}.

Definition calls {N B : Type} (es : list (event N B))
  : list (ApiClient.config B) :=
  omap (λ e, match e with Call c => Some c | _ => None end) es.

(** The calls among the effects of the submission handlers. *)
Definition requests {B : Type} (es : list (Ui.effect B))
  : list (ApiClient.config B) :=
  omap (λ e, match e with Ui.Request c => Some c | _ => None end) es.

End Fx.

(** ** screens/LoginScreen.tsx: [handleLogin] *)

Module LoginForm.
Import Js AsyncStorage AuthContext Fx.

Record State : Type := mkState {
  email : string;
  password : string;
  loading : bool;
}.

Definition initial : State := mkState "" "" false.

Definition setLoading (v : bool) (s : State) : State :=
  mkState (email s) (password s) v.

Inductive notice : Type :=
| FillCredentials        (* title 'Hata', asks for email and password *)
| Detail (d : string)    (* error.response.data.detail *)
| Stringified (j : string)
                         (* JSON.stringify(error.response.data) *)
| LoginFailed.           (* the fixed text at the end of the ?? chain *)

(** What the catch block reads off a rejected call: [detail] is
    [error?.response?.data?.detail] unless null or undefined, [stringified]
    is [JSON.stringify(error?.response?.data)] unless undefined. *)
Record login_error : Type := mkLoginError {
  detail : option string;
  stringified : option string;
}.

(** [detail ?? stringified ?? 'Giris basarisiz.'] *)
Definition message (e : login_error) : notice :=
  match detail e with
  | Some d => Detail d
  | None =>
      match stringified e with
      | Some j => Stringified j
      | None => LoginFailed
      end
  end.

(** [response] settles the POST and carries [response.data.access]; [m] is
    the medium the write inside [login] meets.  A storage error thrown by
    [login] has no [response], so the catch block shows the fixed text. *)
Definition handleLogin (response : settled login_error string) (m : medium)
    (s : State) (w : world)
  : State * world * list (event notice LoginScreen.Credentials) :=
  if negb (truthy (trim (email s))) || negb (truthy (password s))
  then (s, w, [Notify FillCredentials])
  else
    let s1 := setLoading true s in
    let call := Call (LoginScreen.login_request (email s) (password s)) in
    match response with
    | fulfilled access =>
        match login m access w with
        | (w', fulfilled _) => (setLoading false s1, w', [call])
        | (w', rejected _) => (setLoading false s1, w', [call; Notify LoginFailed])
        end
    | rejected error => (setLoading false s1, w, [call; Notify (message error)])
    end.

End LoginForm.

(** ** screens/HomeScreen.tsx: the photo handlers and the form as a whole *)

Module HomeForm.
Import Js Ui HomeScreen.

(** [status] of [requestCameraPermissionsAsync()]. *)
Inductive permission : Set := granted | denied | undetermined.

Definition is_granted (p : permission) : bool :=
  match p with
  | granted => true
  | _ => false
  end.

Record asset : Type := mkAsset {
  uri : string;
  base64 : option string;
}.

(** The result of the picker or the camera: cancelled, or the assets. *)
Inductive picker_result : Type :=
| Canceled
| Picked (assets : list asset).

Inductive photo_notice : Set := PermissionNeeded.

(** The body shared by [pickImage] and [takePhoto] after the launch:
    [if (!result.canceled && result.assets[0]) { ... }]. *)
Definition store_asset (result : picker_result) (s : State) : State :=
  match result with
  | Canceled => s
  | Picked assets =>
      match assets !! 0%nat with
      | Some a => setImageBase64 (base64 a) (setImageUri (Some (uri a)) s)
      | None => s
      end
  end.

Definition pickImage (status : permission) (result : picker_result)
    (s : State) : State * list photo_notice :=
  if is_granted status then (store_asset result s, [])
  else (s, [PermissionNeeded]).

Definition takePhoto (status : permission) (result : picker_result)
    (s : State) : State * list photo_notice :=
  if is_granted status then (store_asset result s, [])
  else (s, [PermissionNeeded]).

(** The handler of the remove button on the preview. *)
Definition removePhoto (s : State) : State :=
  setImageBase64 None (setImageUri None s).

(** What the user can do on the screen. *)
Inductive action : Type :=
| ChangeBinId (text : string)
| PressCategory (i : nat)
| PickImage (status : permission) (result : picker_result)
| TakePhoto (status : permission) (result : picker_result)
| PressRemove
| PressSubmit (now : string) (response : settled api_error unit).

(** One action: the next state and the requests it sent.  A category
    button exists for each entry of [WASTE_CATEGORIES]; the remove button
    is rendered while [imageUri] is truthy; the submit button is disabled
    while [loading]. *)
Definition step (s : State) (a : action)
  : State * list (ApiClient.config ReportBody) :=
  match a with
  | ChangeBinId text => (setBinId text s, [])
  | PressCategory i =>
      match WASTE_CATEGORIES !! i with
      | Some cat => (setWasteCategory cat s, [])
      | None => (s, [])
      end
  | PickImage status result => (fst (pickImage status result s), [])
  | TakePhoto status result => (fst (takePhoto status result s), [])
  | PressRemove =>
      if truthy_or_null (imageUri s) then (removePhoto s, []) else (s, [])
  | PressSubmit now response =>
      if loading s then (s, [])
      else let '(s', es) := submitReport now response s in
           (s', Fx.requests es)
  end.

Fixpoint run (acts : list action) (s : State)
  : State * list (ApiClient.config ReportBody) :=
  match acts with
  | [] => (s, [])
  | a :: acts' =>
      let '(s1, sent1) := step s a in
      let '(s2, sent2) := run acts' s1 in
      (s2, sent1 ++ sent2)%list
  end.

End HomeForm.

(** ** screens/DetectiveScreen.tsx: the map, the modal and the form *)

Module DetectiveForm.
Import Js Ui DetectiveScreen.

Section Form.
Context {Number : Type} (toFixed6 : Number → Number).

Definition handleMapPress (coordinate : Coordinate Number)
    (s : State Number) : State Number :=
  setSelectedLocation (Some coordinate) s.

(** [takePhoto] and [pickImage] after the launch; a missing [base64]
    becomes the empty string. *)
Definition store_asset (result : HomeForm.picker_result)
    (s : State Number) : State Number :=
  match result with
  | HomeForm.Canceled => s
  | HomeForm.Picked assets =>
      match assets !! 0%nat with
      | Some a =>
          setImageBase64 (default "" (HomeForm.base64 a))
            (setImageUri (HomeForm.uri a) s)
      | None => s
      end
  end.

Definition takePhoto (status : HomeForm.permission)
    (result : HomeForm.picker_result) (s : State Number)
  : State Number * list HomeForm.photo_notice :=
  if HomeForm.is_granted status then (store_asset result s, [])
  else (s, [HomeForm.PermissionNeeded]).

Definition pickImage (status : HomeForm.permission)
    (result : HomeForm.picker_result) (s : State Number)
  : State Number * list HomeForm.photo_notice :=
  if HomeForm.is_granted status then (store_asset result s, [])
  else (s, [HomeForm.PermissionNeeded]).

Definition removePhoto (s : State Number) : State Number :=
  setImageBase64 "" (setImageUri "" s).

(** What the user can do on the screen. *)
Inductive action : Type :=
| MapPress (coordinate : Coordinate Number)
| PressReport
| ChangeDescription (text : string)
| TakePhoto (status : HomeForm.permission) (result : HomeForm.picker_result)
| PickImage (status : HomeForm.permission) (result : HomeForm.picker_result)
| PressRemove
| PressCancel
| PressSubmit (response : settled api_error unit)
              (refetch : settled api_error (reports_payload Number)).

(** One action: the next state and the requests it sent.  The report
    button is rendered while a location is selected, the remove button
    while [imageUri] is truthy; the submit button is disabled while
    [loading]. *)
Definition step (s : State Number) (a : action)
  : State Number * list (ApiClient.config (IssueBody Number)) :=
  match a with
  | MapPress coordinate => (handleMapPress coordinate s, [])
  | PressReport =>
      match selectedLocation s with
      | Some _ => (setModalVisible true s, [])
      | None => (s, [])
      end
  | ChangeDescription text => (setDescription text s, [])
  | TakePhoto status result => (fst (takePhoto status result s), [])
  | PickImage status result => (fst (pickImage status result s), [])
  | PressRemove =>
      if truthy (imageUri s) then (removePhoto s, []) else (s, [])
  | PressCancel => (closeModal s, [])
  | PressSubmit response refetch =>
      if loading s then (s, [])
      else let '(s', es) := submitReport toFixed6 response refetch s in
           (s', Fx.requests es)
  end.

Fixpoint run (acts : list action) (s : State Number)
  : State Number * list (ApiClient.config (IssueBody Number)) :=
  match acts with
  | [] => (s, [])
  | a :: acts' =>
      let '(s1, sent1) := step s a in
      let '(s2, sent2) := run acts' s1 in
      (s2, sent1 ++ sent2)%list
  end.

End Form.

Arguments action : clear implicits.

End DetectiveForm.

(** ** screens/LeaderboardScreen.tsx: what a row shows *)

Module LeaderboardView.
Import Js.

Definition AVATAR_COLORS : list string :=
  ["#4CAF50"; "#2196F3"; "#FF9800"; "#9C27B0";
   "#F44336"; "#00BCD4"; "#FF5722"; "#607D8B"].

(** [a[k]] for an integer [k]: undefined below zero and past the end. *)
Definition at_index {A : Type} (a : list A) (k : Z) : option A :=
  if (k <? 0)%Z then None else a !! Z.to_nat k.

(** [AVATAR_COLORS[id % AVATAR_COLORS.length]] for an integer [id]; the
    remainder of JavaScript has the sign of the dividend. *)
Definition avatarColor (id : Z) : option string :=
  at_index AVATAR_COLORS (Z.rem id (Z.of_nat (length AVATAR_COLORS))).

Inductive medal : Set := Crown | Silver | Bronze.

(** [MEDAL[rank]] for an integer [rank]. *)
Definition MEDAL (rank : Z) : option medal :=
  if (rank =? 1)%Z then Some Crown
  else if (rank =? 2)%Z then Some Silver
  else if (rank =? 3)%Z then Some Bronze
  else None.

Definition isTop3 (rank : Z) : bool := (rank <=? 3)%Z.

(** The rank cell of [renderItem]: the medal when there is one, the rank
    otherwise. *)
Inductive rank_cell : Type :=
| MedalText (m : medal)
| RankText (rank : Z).

Definition rank_shown (rank : Z) : rank_cell :=
  match MEDAL rank with
  | Some m => MedalText m
  | None => RankText rank
  end.

Inductive TypeError : Set := NotAnObject.

(** [s[0]]: the first code unit, or undefined. *)
Definition unit0 (s : string) : option ascii :=
  match s with
  | String c _ => Some c
  | EmptyString => None
  end.

(** [a + b] for two values that are a one-unit string or undefined:
    a string when one of them is a string (undefined reads "undefined"),
    NaN when both are undefined. *)
Inductive sum_value : Type :=
| SumString (s : string)
| SumNaN.

Definition add (a b : option ascii) : sum_value :=
  match a, b with
  | Some x, Some y => SumString (String x (String y ""))
  | Some x, None => SumString (String x "undefined")
  | None, Some y => SumString ("undefined" +:+ String y "")
  | None, None => SumNaN
  end.

Section Initials.

(** [s.toUpperCase()] maps some code units below 256 to longer strings or
    to code units above 255; it is a parameter. *)
Context (toUpperCase : string → string).

(** [initials(name)]; reading [[0]] of a missing part and calling
    [toUpperCase] on NaN throw a TypeError. *)
Definition initials (name : string) : settled TypeError string :=
  let parts := split " " (trim name) in
  if (2 <=? length parts)%nat then
    match parts !! 0%nat, parts !! (length parts - 1)%nat with
    | Some p, Some q =>
        match add (unit0 p) (unit0 q) with
        | SumString s => fulfilled (toUpperCase s)
        | SumNaN => rejected NotAnObject
        end
    | _, _ => rejected NotAnObject
    end
  else fulfilled (toUpperCase (substring 0 2 name)).

End Initials.

End LeaderboardView.

(** ** screens/BountyScreen.tsx: what a task card shows *)

Module BountyView.

(** A task as 'reports/tasks/' returns it; the numbers are integers. *)
Record Task : Type := mkTask {
  id : Z;
  title : string;
  desc : string;
  target : Z;
  current : Z;
  reward : Z;
  icon : string;
}.

(** [item.current >= item.target] *)
Definition done (item : Task) : bool := (target item <=? current item)%Z.

(** The count of the progress label: [Math.min(item.current, item.target)]. *)
Definition shown (item : Task) : Z := Z.min (current item) (target item).

End BountyView.

(** ** screens/ProfileScreen.tsx: [handleLogout] *)

Module ProfileForm.
Import Js AsyncStorage AuthContext.

(** The button of the confirmation alert the user presses. *)
Inductive choice : Set := Cancel | Confirm.

(** [handleLogout]: the destructive button runs [logout]; nothing awaits
    or catches the promise it returns, so a rejection raises no notice. *)
Definition handleLogout (pressed : choice) (m : medium) (w : world) : world :=
  match pressed with
  | Cancel => w
  | Confirm => fst (logout m w)
  end.

End ProfileForm.

(** ** screens/LeaderboardScreen.tsx: fetching and what the screen shows *)

Module LeaderboardList.
Import Js Ui.

Record LeaderboardEntry : Type := mkEntry {
  id : Z;
  name : string;
  points : Z;
  rank : Z;
}.

Record State : Type := mkState {
  data : list LeaderboardEntry;
  loading : bool;
}.

(** The [useState] defaults. *)
Definition initial : State := mkState [] true.

Definition setData (v : list LeaderboardEntry) (s : State) : State :=
  mkState v (loading s).
Definition setLoading (v : bool) (s : State) : State :=
  mkState (data s) v.

(** [fetchLeaderboard] with the state updates of its promise chain:
    [setLoading(true)], then [setData(res.data)] or [console.error],
    finally [setLoading(false)]. *)
Definition fetchLeaderboard (userToken : option string)
    (response : settled api_error (list LeaderboardEntry)) (s : State)
  : State * list (Fx.event unit unit) :=
  let s1 := setLoading true s in
  let call := Fx.Call (LeaderboardScreen.fetchLeaderboard userToken) in
  match response with
  | fulfilled rows => (setLoading false (setData rows s1), [call])
  | rejected _ => (setLoading false s1, [call; Fx.Log])
  end.

(** What the screen renders below its header. *)
Inductive body : Type :=
| Spinner
| NobodyYet
| Rows (rows : list LeaderboardEntry).

Definition render (s : State) : body :=
  if loading s then Spinner
  else if (length (data s) =? 0)%nat then NobodyYet
  else Rows (data s).

End LeaderboardList.

(** * Properties *)

(** ** JavaScript strings *)

Section JsFacts.
Import Js.

Example trim_strips_both_ends : trim "  B-17 " = "B-17".
Proof. reflexivity. Qed.

Example trim_keeps_inner_space : trim " a b " = "a b".
Proof. reflexivity. Qed.

Example split_at_sign : split "@" "ada@x.edu" = ["ada"; "x.edu"].
Proof. reflexivity. Qed.

Example split_without_separator : split "@" "ada" = ["ada"].
Proof. reflexivity. Qed.

Example first_of_two_signs : first (split "@" "a@b@c") = "a".
Proof. reflexivity. Qed.

Example toLowerCase_mixed : toLowerCase "Ada.L@X.EDU" = "ada.l@x.edu".
Proof. reflexivity. Qed.

Lemma trimStart_cases s :
  (trimStart s = ""
   ∧ Forall (λ c, isWhiteSpace c = true) (list_ascii_of_string s))
  ∨ (∃ c r, trimStart s = String c r ∧ isWhiteSpace c = false
            ∧ ¬ Forall (λ c, isWhiteSpace c = true) (list_ascii_of_string s)).
Proof.
  induction s as [|c s IH]; simpl.
  - left. split; [reflexivity | constructor].
  - destruct (isWhiteSpace c) eqn:Hc.
    + destruct IH as [[-> Hall]|(c' & r & -> & Hc' & Hnot)].
      * left. split; [reflexivity | by constructor].
      * right. exists c', r. repeat split; [done|].
        intros Hall. apply Hnot. by inversion Hall.
    + right. exists c, s. repeat split; [done|].
      intros Hall. inversion Hall as [|? ? Hws]; congruence.
Qed.

Lemma trimEnd_keeps_head c r : isWhiteSpace c = false → trimEnd (String c r) ≠ "".
Proof. intros Hc. simpl. rewrite Hc. by destruct (trimEnd r). Qed.

(** [s.trim()] is empty exactly when [s] holds white space only. *)
Lemma trim_blank_iff s :
  trim s = "" ↔ Forall (λ c, isWhiteSpace c = true) (list_ascii_of_string s).
Proof.
  unfold trim.
  destruct (trimStart_cases s) as [[-> Hall]|(c & r & -> & Hc & Hnot)].
  - split; [done | reflexivity].
  - split; [|done]. intros H. by apply trimEnd_keeps_head in H.
Qed.

End JsFacts.

(** ** The session context *)

Section SessionFacts.
Import Js AsyncStorage AuthContext.

Lemma observe_expose v : observe (expose v) = v.
Proof. by destruct v. Qed.

Lemma settled_canonical c : isLoading c = false → c = expose (observe c).
Proof.
  destruct c as [[t|] b]; simpl; intros ->; reflexivity.
Qed.

Lemma init_settles m w : isLoading (context (init m w)) = false.
Proof. reflexivity. Qed.

Lemma login_isLoading m t w :
  isLoading (context (fst (login m t w))) = isLoading (context w).
Proof. by destruct m. Qed.

Lemma logout_isLoading m w :
  isLoading (context (fst (logout m w))) = isLoading (context w).
Proof. by destruct m. Qed.

Lemma act_isLoading w a :
  isLoading (context (act w a)) = isLoading (context w).
Proof.
  destruct a as [m t|m]; [apply login_isLoading | apply logout_isLoading].
Qed.

Lemma run_isLoading acts : ∀ w,
  isLoading (context (run acts w)) = isLoading (context w).
Proof.
  induction acts as [|a acts IH]; intros w; [reflexivity|].
  unfold run in *. simpl. rewrite IH. apply act_isLoading.
Qed.

Lemma session_settled st0 m acts :
  isLoading (context (session st0 m acts)) = false.
Proof. unfold session. rewrite run_isLoading. apply init_settles. Qed.

(** A successful write or removal is the healthy one. *)
Lemma setItem_fulfilled m k v st st' :
  setItem m k v st = (st', fulfilled tt) → m = Healthy ∧ st' = <[k := v]> st.
Proof. destruct m; simpl; intros H; simplify_eq; auto. Qed.

Lemma removeItem_fulfilled m k st st' :
  removeItem m k st = (st', fulfilled tt) → m = Healthy ∧ st' = delete k st.
Proof. destruct m; simpl; intros H; simplify_eq; auto. Qed.

Lemma login_fulfilled m t w w' :
  login m t w = (w', fulfilled tt) →
  w' = mkWorld (<[TOKEN_KEY := t]> (storage w))
               (mkAuth (Some t) (isLoading (context w))).
Proof. destruct m; unfold login; simpl; intros H; by simplify_eq. Qed.

Lemma logout_fulfilled m w w' :
  logout m w = (w', fulfilled tt) →
  w' = mkWorld (delete TOKEN_KEY (storage w))
               (mkAuth None (isLoading (context w))).
Proof. destruct m; unfold logout; simpl; intros H; by simplify_eq. Qed.

Lemma act_cache_agrees w a : cache_agrees w → cache_agrees (act w a).
Proof.
  unfold cache_agrees. intros H.
  destruct a as [[] t|[]]; simpl; try done.
  - by rewrite lookup_insert_eq.
  - by rewrite lookup_delete_eq.
Qed.

Lemma run_cache_agrees acts : ∀ w, cache_agrees w → cache_agrees (run acts w).
Proof.
  induction acts as [|a acts IH]; intros w H; [done|].
  apply IH. by apply act_cache_agrees.
Qed.

Lemma session_cache_agrees st0 acts :
  cache_agrees (session st0 Healthy acts).
Proof. apply run_cache_agrees. reflexivity. Qed.

Lemma act_cached_is_stored w a : cached_is_stored w → cached_is_stored (act w a).
Proof.
  unfold cached_is_stored. intros H u.
  destruct a as [[] t|[]]; simpl; try apply H.
  - intros [= ->]. by rewrite lookup_insert_eq.
  - done.
Qed.

Lemma session_cached_is_stored st0 m acts :
  cached_is_stored (session st0 m acts).
Proof.
  unfold session.
  assert (Hinit : cached_is_stored (init m (mount st0))).
  { destruct m; intros t; simpl; [done | discriminate]. }
  revert Hinit. generalize (init m (mount st0)).
  induction acts as [|a acts IH]; intros w H; [done|].
  apply IH. by apply act_cached_is_stored.
Qed.

End SessionFacts.

Section SessionClaims.
Import Js AsyncStorage AuthContext.

(** C2.  In a session, after [login t] has completed successfully a read of
    the persisted store returns [t], and the context is the authenticated
    state holding [t]. *)
Theorem login_persists_and_authenticates st0 m0 acts m t w' :
  login m t (session st0 m0 acts) = (w', fulfilled tt) →
  getItem Healthy TOKEN_KEY (storage w') = fulfilled (Some t)
  ∧ context w' = expose (authenticated t)
  ∧ observe (context w') = authenticated t.
Proof.
  intros H. apply login_fulfilled in H. subst w'. simpl.
  rewrite lookup_insert_eq, session_settled. auto.
Qed.

Lemma login_persists_and_authenticates_witness :
  let w' := fst (login Healthy "tok123" (session ∅ Healthy [])) in
  getItem Healthy TOKEN_KEY (storage w') = fulfilled (Some "tok123")
  ∧ context w' = expose (authenticated "tok123")
  ∧ observe (context w') = authenticated "tok123".
Proof.
  apply (login_persists_and_authenticates ∅ Healthy [] Healthy "tok123").
  reflexivity.
Defined.

(** C3.  From every state, when the write of the token store inside
    [login t] raises, [login] raises the same error and the context value
    (and the store) is what it was before the call. *)
Theorem login_failure_keeps_session w t m e :
  snd (setItem m TOKEN_KEY t (storage w)) = rejected e →
  snd (login m t w) = rejected e
  ∧ context (fst (login m t w)) = context w
  ∧ storage (fst (login m t w)) = storage w.
Proof.
  destruct m; simpl; [discriminate|]. intros [= <-]. auto.
Qed.

Lemma login_failure_keeps_session_witness :
  let w := session {[TOKEN_KEY := "old"]} Healthy [] in
  snd (login Faulty "new" w) = rejected StorageFailure
  ∧ context (fst (login Faulty "new" w)) = context w
  ∧ storage (fst (login Faulty "new" w)) = storage w.
Proof.
  apply (login_failure_keeps_session _ "new" Faulty StorageFailure).
  reflexivity.
Defined.

(** C4.  In a session, after [logout] has completed a read of the store
    returns absent and the context is the unauthenticated state; and from
    every state a second [logout] in a row ends in the state the first one
    ended in (whether the two meet the same medium, or the first succeeded
    and the second meets any medium). *)
Theorem logout_clears_and_is_idempotent :
  (∀ st0 m0 acts m w',
     logout m (session st0 m0 acts) = (w', fulfilled tt) →
     getItem Healthy TOKEN_KEY (storage w') = fulfilled None
     ∧ context w' = expose unauthenticated
     ∧ observe (context w') = unauthenticated)
  ∧ (∀ w m, fst (logout m (fst (logout m w))) = fst (logout m w))
  ∧ (∀ w m, fst (logout m (fst (logout Healthy w))) = fst (logout Healthy w)).
Proof.
  split; [|split].
  - intros st0 m0 acts m w' H. apply logout_fulfilled in H. subst w'. simpl.
    rewrite lookup_delete_eq, session_settled. auto.
  - intros w []; unfold logout; simpl; [|reflexivity].
    by rewrite delete_delete_eq.
  - intros w []; unfold logout; simpl; [|reflexivity].
    by rewrite delete_delete_eq.
Qed.

Lemma logout_clears_and_is_idempotent_witness :
  let w' := fst (logout Healthy (session ∅ Healthy [Login Healthy "tok123"])) in
  getItem Healthy TOKEN_KEY (storage w') = fulfilled None
  ∧ context w' = expose unauthenticated
  ∧ observe (context w') = unauthenticated.
Proof.
  apply (proj1 logout_clears_and_is_idempotent
           ∅ Healthy [Login Healthy "tok123"] Healthy).
  reflexivity.
Defined.

Lemma states_from_canonical acts : ∀ w,
  isLoading (context w) = false →
  Forall (λ w, context w = expose (observe (context w))) (states_from w acts).
Proof.
  induction acts as [|a acts IH]; intros w Hw; simpl.
  - constructor; [by apply settled_canonical | constructor].
  - constructor; [by apply settled_canonical |].
    apply IH. by rewrite act_isLoading.
Qed.

Lemma states_from_settled acts : ∀ w,
  isLoading (context w) = false →
  Forall (λ w, isLoading (context w) = false
               ∧ context w = expose (observe (context w)))
         (states_from w acts).
Proof.
  induction acts as [|a acts IH]; intros w Hw; simpl.
  - constructor; [by split; [|apply settled_canonical] | constructor].
  - constructor; [by split; [|apply settled_canonical] |].
    apply IH. by rewrite act_isLoading.
Qed.

(** C5, as stated, fails: the mount effect sets the token and clears the
    loading flag in two callbacks.  With "tok123" in the store, between
    its [.then] and its [.finally] the context holds the token while
    [isLoading] is still true, which is the representation of none of
    loading, authenticated(token), unauthenticated. *)
Lemma token_set_while_still_loading :
  let st0 : gmap string string := {[TOKEN_KEY := "tok123"]} in
  let w := init_then Healthy (mount st0) in
  w ∈ history st0 Healthy []
  ∧ context w = mkAuth (Some "tok123") true
  ∧ ∀ v, context w ≠ expose v.
Proof.
  split; [|split].
  - unfold history. apply list_elem_of_further, list_elem_of_here.
  - reflexivity.
  - intros v.
    change (mkAuth (Some "tok123") true ≠ expose v).
    destruct v; discriminate.
Qed.

(** C5, amended.  The context value is the pair (userToken, isLoading).
    At every point of every session (first render, between the two
    callbacks of the mount effect, after the mount effect, after each
    login or logout) it is the representation of its three-valued reading,
    one of loading, authenticated(token), unauthenticated, with one
    exception: between the two callbacks of a mount effect that read a
    token from the store, the token is set while [isLoading] is still
    true.  From the end of the mount effect on, the context is never
    loading again and is always authenticated(token) or unauthenticated;
    and each of the three values is exposed in some session. *)
Theorem session_states_and_mount_transient :
  (∀ st0 m acts,
     Forall (λ w, context w = expose (observe (context w))
                  ∨ ∃ t, m = Healthy
                         ∧ st0 !! TOKEN_KEY = Some t
                         ∧ w = init_then m (mount st0)
                         ∧ context w = mkAuth (Some t) true)
            (history st0 m acts))
  ∧ (∀ st0 m acts,
       Forall (λ w, isLoading (context w) = false
                    ∧ context w = expose (observe (context w)))
              (states_from (init m (mount st0)) acts))
  ∧ (∀ v, ∃ st0 m acts w,
       w ∈ history st0 m acts ∧ context w = expose v).
Proof.
  split; [|split].
  - intros st0 m acts. unfold history.
    constructor; [by left|]. constructor.
    + destruct m; [|by left].
      destruct (st0 !! TOKEN_KEY) as [t|] eqn:Ht.
      * right. exists t. unfold init_then. simpl. rewrite Ht. by repeat split.
      * left. unfold init_then. simpl. by rewrite Ht.
    + eapply Forall_impl; [apply states_from_canonical, init_settles|].
      intros w Hw. by left.
  - intros st0 m acts. apply states_from_settled, init_settles.
  - intros [|t|].
    + exists ∅, Healthy, [], (mount ∅). split; [|reflexivity].
      unfold history. apply list_elem_of_here.
    + exists ∅, Healthy, [Login Healthy t],
        (act (init Healthy (mount ∅)) (Login Healthy t)).
      split; [|reflexivity].
      unfold history. simpl. do 3 apply list_elem_of_further.
      apply list_elem_of_here.
    + exists ∅, Healthy, [], (init Healthy (mount ∅)). split.
      * unfold history. simpl.
        do 2 apply list_elem_of_further. apply list_elem_of_here.
      * unfold init, init_then. simpl. by rewrite lookup_empty.
Qed.

End SessionClaims.

(** ** The request interceptor *)

Section InterceptorClaims.
Import Js AsyncStorage ApiClient AuthContext.

Lemma truthy_nonempty t : t ≠ "" → truthy t = true.
Proof.
  intros Ht. unfold truthy. destruct (String.eqb_spec t ""); [done|reflexivity].
Qed.

(** What the interceptor does to the Authorization header of any call. *)
Lemma outbound_authorization {B : Type} m st (c c' : config B) :
  outbound m st c = fulfilled c' →
  authorization c' =
    match st !! TOKEN_KEY with
    | Some t => if truthy t then Some ("Bearer " +:+ t) else authorization c
    | None => authorization c
    end.
Proof.
  unfold outbound, request_interceptor, TOKEN_KEY.
  destruct m; simpl; [|discriminate].
  destruct (st !! "userToken") as [t|]; [|by intros [= <-]].
  destruct (truthy t); intros [= <-]; [|reflexivity].
  unfold authorization. simpl. apply lookup_insert_eq.
Qed.

(** A healthy read always lets the request through. *)
Lemma outbound_healthy {B : Type} st (c : config B) :
  ∃ c', outbound Healthy st c = fulfilled c'.
Proof.
  unfold outbound, request_interceptor. simpl.
  destruct (st !! "userToken") as [t|]; [destruct (truthy t)|]; eauto.
Qed.

(** C1, as stated, fails: the interceptor reads the token store, not the
    session context.  A token "tok123" is in the store from an earlier run;
    the read of the mount effect rejects, so the context settles to
    unauthenticated; the login request issued next, whose interceptor read
    succeeds, carries "Bearer tok123". *)
Lemma unauthenticated_call_carries_stored_token :
  let w := session {[TOKEN_KEY := "tok123"]} Faulty [] in
  let sent :=
    mkConfig "post" "auth/login/" {["Authorization" := "Bearer tok123"]}
             (Some (LoginScreen.mkCredentials "a@x.edu" "p")) in
  observe (context w) = unauthenticated
  ∧ outbound Healthy (storage w) (LoginScreen.login_request "a@x.edu" "p")
    = fulfilled sent
  ∧ authorization sent = Some "Bearer tok123".
Proof. repeat split; reflexivity. Qed.

(** C1, amended.  Every call that is sent went through the interceptor,
    which takes the token from the store: a non-empty stored token becomes
    the bearer credential and replaces a header set by the caller, otherwise
    the caller's header is left as it is.  Hence, in every session, a call
    sent while the context is authenticated(t), t non-empty, carries
    "Bearer t"; and in a session whose mount effect could read the store, a
    call that sets no Authorization header of its own, sent while the
    context is unauthenticated, carries none. *)
Theorem outbound_carries_stored_token :
  (∀ (B : Type) m st (c c' : config B),
     outbound m st c = fulfilled c' →
     authorization c' =
       match st !! TOKEN_KEY with
       | Some t => if truthy t then Some ("Bearer " +:+ t) else authorization c
       | None => authorization c
       end)
  ∧ (∀ (B : Type) st0 m0 acts m (c c' : config B) t,
       outbound m (storage (session st0 m0 acts)) c = fulfilled c' →
       observe (context (session st0 m0 acts)) = authenticated t →
       t ≠ "" →
       authorization c' = Some ("Bearer " +:+ t))
  ∧ (∀ (B : Type) st0 acts m (c c' : config B),
       outbound m (storage (session st0 Healthy acts)) c = fulfilled c' →
       observe (context (session st0 Healthy acts)) = unauthenticated →
       authorization c = None →
       authorization c' = None).
Proof.
  split; [|split].
  - intros B m st c c'. apply outbound_authorization.
  - intros B st0 m0 acts m c c' t Hsent Hauth Ht.
    rewrite (outbound_authorization _ _ _ _ Hsent).
    assert (Htok : userToken (context (session st0 m0 acts)) = Some t).
    { revert Hauth. unfold observe. rewrite session_settled.
      destruct (userToken _); [by intros [= ->] | discriminate]. }
    rewrite (session_cached_is_stored st0 m0 acts t Htok).
    by rewrite truthy_nonempty.
  - intros B st0 acts m c c' Hsent Hun Hc.
    rewrite (outbound_authorization _ _ _ _ Hsent).
    assert (Htok : userToken (context (session st0 Healthy acts)) = None).
    { revert Hun. unfold observe. rewrite session_settled.
      destruct (userToken _); [discriminate | done]. }
    rewrite <- (session_cache_agrees st0 acts), Htok. exact Hc.
Qed.

Lemma outbound_carries_stored_token_witness :
  let call := LoginScreen.login_request "a@x.edu" "p" in
  let w := session ∅ Healthy [Login Healthy "tok123"] in
  let sent :=
    mkConfig "post" "auth/login/" {["Authorization" := "Bearer tok123"]}
             (Some (LoginScreen.mkCredentials "a@x.edu" "p")) in
  let w0 := session ∅ Healthy [] in
  (outbound Healthy (storage w) call = fulfilled sent
   ∧ observe (context w) = authenticated "tok123"
   ∧ authorization sent = Some "Bearer tok123")
  ∧ (outbound Healthy (storage w0) call = fulfilled call
     ∧ observe (context w0) = unauthenticated
     ∧ authorization call = None).
Proof.
  split.
  - split; [reflexivity | split; [reflexivity|]].
    apply (proj1 (proj2 outbound_carries_stored_token) _
             ∅ Healthy [Login Healthy "tok123"] Healthy
             (LoginScreen.login_request "a@x.edu" "p") _ "tok123").
    + reflexivity.
    + reflexivity.
    + discriminate.
  - split; [reflexivity | split; [reflexivity|]].
    apply (proj2 (proj2 outbound_carries_stored_token) _
             ∅ [] Healthy (LoginScreen.login_request "a@x.edu" "p")
             (LoginScreen.login_request "a@x.edu" "p")).
    + reflexivity.
    + reflexivity.
    + reflexivity.
Defined.

(** C9.  With a null token in memory the profile fetch and the leaderboard
    fetch set the header Authorization to the literal "Bearer null"; the
    header is set whatever the token is, and "Bearer null" is what is sent
    unless the store holds a non-empty token for the interceptor to put in
    its place. *)
Theorem null_token_sends_bearer_null :
  authorization (ProfileScreen.profile_request None) = Some "Bearer null"
  ∧ authorization (LeaderboardScreen.fetchLeaderboard None) = Some "Bearer null"
  ∧ (∀ u, is_Some (authorization (ProfileScreen.profile_request u))
          ∧ is_Some (authorization (LeaderboardScreen.fetchLeaderboard u)))
  ∧ (∀ m st c',
       truthy_or_null (st !! TOKEN_KEY) = false →
       outbound m st (ProfileScreen.profile_request None) = fulfilled c' →
       authorization c' = Some "Bearer null")
  ∧ (∀ m st c',
       truthy_or_null (st !! TOKEN_KEY) = false →
       outbound m st (LeaderboardScreen.fetchLeaderboard None) = fulfilled c' →
       authorization c' = Some "Bearer null").
Proof.
  assert (Hp : ∀ u, authorization (ProfileScreen.profile_request u)
                    = Some ("Bearer " +:+ ToString u)).
  { intros u. unfold authorization. simpl. apply lookup_singleton_eq. }
  assert (Hl : ∀ u, authorization (LeaderboardScreen.fetchLeaderboard u)
                    = Some ("Bearer " +:+ ToString u)).
  { intros u. unfold authorization. simpl. apply lookup_singleton_eq. }
  split; [apply Hp | split; [apply Hl | split; [|split]]].
  - intros u. rewrite Hp, Hl. eauto.
  - intros m st c' Hfalsy Hsent.
    rewrite (outbound_authorization _ _ _ _ Hsent).
    destruct (st !! TOKEN_KEY) as [t|]; simpl in Hfalsy;
      [rewrite Hfalsy|]; apply Hp.
  - intros m st c' Hfalsy Hsent.
    rewrite (outbound_authorization _ _ _ _ Hsent).
    destruct (st !! TOKEN_KEY) as [t|]; simpl in Hfalsy;
      [rewrite Hfalsy|]; apply Hl.
Qed.

Lemma null_token_sends_bearer_null_witness :
  truthy_or_null ((∅ : gmap string string) !! TOKEN_KEY) = false
  ∧ (outbound Healthy ∅ (ProfileScreen.profile_request None)
     = fulfilled (ProfileScreen.profile_request None)
     ∧ authorization (ProfileScreen.profile_request None) = Some "Bearer null")
  ∧ (outbound Healthy ∅ (LeaderboardScreen.fetchLeaderboard None)
     = fulfilled (LeaderboardScreen.fetchLeaderboard None)
     ∧ authorization (LeaderboardScreen.fetchLeaderboard None)
       = Some "Bearer null").
Proof.
  split; [reflexivity | split].
  - split; [reflexivity|].
    apply (proj1 (proj2 (proj2 (proj2 null_token_sends_bearer_null)))
             Healthy ∅); reflexivity.
  - split; [reflexivity|].
    apply (proj2 (proj2 (proj2 (proj2 null_token_sends_bearer_null)))
             Healthy ∅); reflexivity.
Defined.

End InterceptorClaims.

(** ** Registration *)

Section RegisterClaims.
Import Js Ui RegisterScreen.

Lemma split_nonempty sep s : split sep s ≠ [].
Proof.
  destruct s as [|c s]; simpl; [done|].
  destruct (Ascii.eqb c sep); [done|]. by destruct (split sep s).
Qed.

(** [s.split(sep)[0]] is the text of [s] before the first [sep]: it holds
    no [sep], and [s] is that text alone or that text, [sep], and more. *)
Lemma first_split_prefix sep s :
  (sep ∉ list_ascii_of_string (first (split sep s)))
  ∧ (s = first (split sep s)
     ∨ ∃ rest, s = first (split sep s) +:+ String sep rest).
Proof.
  induction s as [|c s [IHno IHcut]]; simpl.
  - split; [apply not_elem_of_nil | by left].
  - destruct (Ascii.eqb_spec c sep) as [->|Hne]; simpl.
    + split; [apply not_elem_of_nil | right; by exists s].
    + pose proof (split_nonempty sep s) as Hs.
      destruct (split sep s) as [|piece pieces]; [done|].
      unfold first in *. simpl in *. split.
      * intros [Heq|Hin]%elem_of_cons; [by apply Hne | by apply IHno].
      * destruct IHcut as [->|[rest ->]]; [by left|].
        right. by exists rest.
Qed.

Lemma handleRegister_calls response s c :
  Request c ∈ snd (handleRegister response s) →
  c = ApiClient.post "auth/register/" (register_body s).
Proof.
  unfold handleRegister.
  destruct (_ || _); simpl.
  - intros [Heq|Hin]%elem_of_cons; [discriminate | by apply elem_of_nil in Hin].
  - destruct response as [[]|error]; simpl;
      (intros [Heq|Hin]%elem_of_cons; [by injection Heq as -> |]);
      apply elem_of_cons in Hin as [Heq|Hin];
      try discriminate; by apply elem_of_nil in Hin.
Qed.

(** C8.  For every registration form, every request [handleRegister] issues
    is the POST to 'auth/register/' whose body holds the trimmed first and
    last name, the trimmed, lower-cased email, the password, and as
    username the text of that email before its first '@' (all of it when it
    has no '@'); a form with all four fields filled issues exactly that one
    request. *)
Theorem register_username_is_local_part response s :
  let e := toLowerCase (trim (email s)) in
  let b := register_body s in
  (∀ c, Request c ∈ snd (handleRegister response s) →
        c = ApiClient.post "auth/register/" b)
  ∧ (trim (firstName s) ≠ "" → trim (lastName s) ≠ "" →
     trim (email s) ≠ "" → password s ≠ "" →
     network_calls (snd (handleRegister response s))
     = [Request (ApiClient.post "auth/register/" b)])
  ∧ first_name b = trim (firstName s)
  ∧ last_name b = trim (lastName s)
  ∧ body_email b = e
  ∧ body_password b = password s
  ∧ ("@"%char ∉ list_ascii_of_string (username b))
  ∧ (e = username b ∨ ∃ rest, e = username b +:+ String "@" rest).
Proof.
  intros e b. split; [|split].
  - intros c. apply handleRegister_calls.
  - intros Hf Hl He Hp. unfold handleRegister, truthy.
    apply String.eqb_neq in Hf, Hl, He, Hp. rewrite Hf, Hl, He, Hp. simpl.
    by destruct response as [[]|error].
  - repeat (split; [reflexivity|]).
    apply (first_split_prefix "@" e).
Qed.

Lemma register_username_is_local_part_witness :
  let s := mkState " Ada " "Lovelace" "  Ada.L@Akdeniz.edu.tr " "pw" false in
  network_calls (snd (handleRegister (fulfilled tt) s))
  = [Request (ApiClient.post "auth/register/"
                (mkBody "Ada" "Lovelace" "ada.l@akdeniz.edu.tr" "ada.l" "pw"))].
Proof.
  apply (proj1 (proj2 (register_username_is_local_part (fulfilled tt)
           (mkState " Ada " "Lovelace" "  Ada.L@Akdeniz.edu.tr " "pw" false))));
    discriminate.
Defined.

End RegisterClaims.

(** ** Report submission *)

Section HomeClaims.
Import Js Ui HomeScreen.




End HomeClaims.

Section SubmissionClaims.
Import Js Ui.

Lemma home_blank_bin_rejected now response s :
  trim (HomeScreen.binId s) = "" →
  HomeScreen.submitReport now response s = (s, [Alert EnterBinId]).
Proof. intros H. unfold HomeScreen.submitReport. by rewrite H. Qed.

Lemma home_filled_bin_posts now response s :
  trim (HomeScreen.binId s) ≠ "" →
  network_calls (snd (HomeScreen.submitReport now response s))
  = [Request (ApiClient.post "reports/create/" (HomeScreen.report_body now s))].
Proof.
  intros H. unfold HomeScreen.submitReport, truthy.
  apply String.eqb_neq in H. rewrite H. simpl.
  by destruct response as [[]|error].
Qed.

(** C6, as stated, fails for the Detective flow: with a location selected
    and the description empty, [submitReport] raises no validation notice
    and posts the report with the empty description. *)
Lemma detective_submits_empty_description :
  let s : DetectiveScreen.State Z :=
    DetectiveScreen.setModalVisible true
      (DetectiveScreen.setSelectedLocation
         (Some (DetectiveScreen.mkCoordinate 36896900%Z 30655300%Z))
         DetectiveScreen.initial) in
  DetectiveScreen.description s = ""
  ∧ snd (DetectiveScreen.submitReport id (fulfilled tt)
           (fulfilled (DetectiveScreen.Bare [])) s)
    = [Request (ApiClient.post "detective/reports/"
                  (DetectiveScreen.mkBody 36896900%Z 30655300%Z "" "OTHER" ""));
       Alert IssueReported;
       Request DetectiveScreen.reports_request].
Proof. split; reflexivity. Qed.

(** C6, amended.  Home: a submission whose bin identifier is empty, or
    blank, is rejected locally with the validation notice, changes nothing
    and makes no network call; any other submission makes exactly one.
    Detective: the one local check is that a location is selected; without
    one the handler returns without a notice and without a network call;
    with one it posts the report first, with the description as it is,
    empty or not. *)
Theorem validation_precedes_network_calls :
  (∀ now response s,
     trim (HomeScreen.binId s) = "" →
     HomeScreen.submitReport now response s = (s, [Alert EnterBinId])
     ∧ network_calls (snd (HomeScreen.submitReport now response s)) = [])
  ∧ (∀ now response s,
       trim (HomeScreen.binId s) ≠ "" →
       network_calls (snd (HomeScreen.submitReport now response s))
       = [Request (ApiClient.post "reports/create/"
                     (HomeScreen.report_body now s))])
  ∧ (∀ (Number : Type) (toFixed6 : Number → Number) response refetch s,
       DetectiveScreen.selectedLocation s = None →
       DetectiveScreen.submitReport toFixed6 response refetch s = (s, []))
  ∧ (∀ (Number : Type) (toFixed6 : Number → Number) response refetch s location,
       DetectiveScreen.selectedLocation s = Some location →
       head (snd (DetectiveScreen.submitReport toFixed6 response refetch s))
       = Some (Request (ApiClient.post "detective/reports/"
                          (DetectiveScreen.issue_body toFixed6 location s)))
       ∧ DetectiveScreen.body_description
           (DetectiveScreen.issue_body toFixed6 location s)
         = DetectiveScreen.description s).
Proof.
  split; [|split; [|split]].
  - intros now response s H.
    rewrite (home_blank_bin_rejected now response s H). by split.
  - apply home_filled_bin_posts.
  - intros Number toFixed6 response refetch s H.
    unfold DetectiveScreen.submitReport. by rewrite H.
  - intros Number toFixed6 response refetch s location H.
    unfold DetectiveScreen.submitReport. rewrite H. split; [|reflexivity].
    destruct response as [[]|error]; [|reflexivity].
    by destruct refetch.
Qed.

Lemma validation_precedes_network_calls_witness :
  let now := "2024-05-01T10:00:00.000Z" in
  let blank := HomeScreen.setBinId "  " HomeScreen.initial in
  let filled := HomeScreen.setBinId "B-17" HomeScreen.initial in
  let nowhere : DetectiveScreen.State Z :=
    DetectiveScreen.setDescription "bin overflowing" DetectiveScreen.initial in
  let place := DetectiveScreen.mkCoordinate 36896900%Z 30655300%Z in
  let somewhere := DetectiveScreen.setSelectedLocation (Some place) nowhere in
  (HomeScreen.submitReport now (fulfilled tt) blank = (blank, [Alert EnterBinId])
   ∧ network_calls (snd (HomeScreen.submitReport now (fulfilled tt) blank)) = [])
  ∧ network_calls (snd (HomeScreen.submitReport now (fulfilled tt) filled))
    = [Request (ApiClient.post "reports/create/"
                  (HomeScreen.report_body now filled))]
  ∧ DetectiveScreen.submitReport id (fulfilled tt)
      (fulfilled (DetectiveScreen.Bare [])) nowhere = (nowhere, [])
  ∧ (head (snd (DetectiveScreen.submitReport id (fulfilled tt)
                  (fulfilled (DetectiveScreen.Bare [])) somewhere))
     = Some (Request (ApiClient.post "detective/reports/"
                        (DetectiveScreen.issue_body id place somewhere)))
     ∧ DetectiveScreen.body_description
         (DetectiveScreen.issue_body id place somewhere)
       = DetectiveScreen.description somewhere).
Proof.
  split; [|split; [|split]].
  - apply (proj1 validation_precedes_network_calls). reflexivity.
  - apply (proj1 (proj2 validation_precedes_network_calls)). discriminate.
  - apply (proj1 (proj2 (proj2 validation_precedes_network_calls)) Z id).
    reflexivity.
  - apply (proj2 (proj2 (proj2 validation_precedes_network_calls)) Z id).
    reflexivity.
Defined.

(** C7, as stated, fails for the Home flow: after a successful submission
    the bin identifier and the photo are reset, the waste category is still
    the one that was selected, so the draft is not the empty one. *)
Lemma home_success_keeps_waste_category :
  let s := HomeScreen.mkState "B-17" "GLASS" false
             (Some "file:///p.jpg") (Some "aGVsbG8=") in
  let s' := fst (HomeScreen.submitReport "2024-05-01T10:00:00.000Z"
                   (fulfilled tt) s) in
  s' = HomeScreen.mkState "" "GLASS" false None None
  ∧ HomeScreen.draft s' ≠ HomeScreen.draft HomeScreen.initial.
Proof. split; [reflexivity | discriminate]. Qed.

(** C7, amended.  When the submission call fails, the draft (Home: bin
    identifier, waste category, photo; Detective: selected location,
    description, photo) is what it was before the call, and so is the
    modal.  When it succeeds, Home resets the bin identifier and the photo
    and keeps the waste category; Detective resets the selected location,
    the description and the photo, closes the modal and starts a fetch of
    the report list. *)
Theorem submission_outcome_and_draft :
  (∀ now error s,
     HomeScreen.draft (fst (HomeScreen.submitReport now (rejected error) s))
     = HomeScreen.draft s)
  ∧ (∀ now s,
       trim (HomeScreen.binId s) ≠ "" →
       HomeScreen.draft (fst (HomeScreen.submitReport now (fulfilled tt) s))
       = ("", HomeScreen.wasteCategory s, None, None))
  ∧ (∀ (Number : Type) (toFixed6 : Number → Number) error refetch s,
       let s' := fst (DetectiveScreen.submitReport toFixed6 (rejected error)
                        refetch s) in
       DetectiveScreen.draft s' = DetectiveScreen.draft s
       ∧ DetectiveScreen.modalVisible s' = DetectiveScreen.modalVisible s)
  ∧ (∀ (Number : Type) (toFixed6 : Number → Number) refetch s location,
       DetectiveScreen.selectedLocation s = Some location →
       let result := DetectiveScreen.submitReport toFixed6 (fulfilled tt)
                       refetch s in
       DetectiveScreen.draft (fst result) = (None, "", "", "")
       ∧ DetectiveScreen.modalVisible (fst result) = false
       ∧ Request DetectiveScreen.reports_request ∈ snd result).
Proof.
  split; [|split; [|split]].
  - intros now error s. unfold HomeScreen.submitReport.
    by destruct (negb _).
  - intros now s H. unfold HomeScreen.submitReport, truthy.
    apply String.eqb_neq in H. by rewrite H.
  - intros Number toFixed6 error refetch s.
    unfold DetectiveScreen.submitReport.
    by destruct (DetectiveScreen.selectedLocation s).
  - intros Number toFixed6 refetch s location H.
    unfold DetectiveScreen.submitReport. rewrite H.
    destruct refetch as [payload|error]; simpl;
      (split; [reflexivity | split; [reflexivity|]]);
      do 2 apply list_elem_of_further; apply list_elem_of_here.
Qed.

Lemma submission_outcome_and_draft_witness :
  let home := HomeScreen.mkState "B-17" "GLASS" false
                (Some "file:///p.jpg") (Some "aGVsbG8=") in
  let place := DetectiveScreen.mkCoordinate 36896900%Z 30655300%Z in
  let detective : DetectiveScreen.State Z :=
    DetectiveScreen.mkState (Some place) None []
      true "bin overflowing" "file:///p.jpg" "aGVsbG8=" false in
  let result := DetectiveScreen.submitReport id (fulfilled tt)
                  (fulfilled (DetectiveScreen.Bare [])) detective in
  HomeScreen.draft
    (fst (HomeScreen.submitReport "2024-05-01T10:00:00.000Z" (fulfilled tt) home))
  = ("", "GLASS", None, None)
  ∧ (DetectiveScreen.draft (fst result) = (None, "", "", "")
     ∧ DetectiveScreen.modalVisible (fst result) = false
     ∧ Request DetectiveScreen.reports_request ∈ snd result).
Proof.
  split.
  - apply (proj1 (proj2 submission_outcome_and_draft)
             "2024-05-01T10:00:00.000Z"
             (HomeScreen.mkState "B-17" "GLASS" false
                (Some "file:///p.jpg") (Some "aGVsbG8="))).
    discriminate.
  - apply (proj2 (proj2 (proj2 submission_outcome_and_draft)) Z id
             (fulfilled (DetectiveScreen.Bare []))
             (DetectiveScreen.mkState
                (Some (DetectiveScreen.mkCoordinate 36896900%Z 30655300%Z))
                None [] true "bin overflowing" "file:///p.jpg" "aGVsbG8=" false)
             (DetectiveScreen.mkCoordinate 36896900%Z 30655300%Z)).
    reflexivity.
Defined.

End SubmissionClaims.

(** * Further properties *)

(** ** Trimming and lower-casing *)

Section NormalisationFacts.
Import Js.

Lemma toLowerCase_unit_idem c :
  toLowerCase_unit (toLowerCase_unit c) = toLowerCase_unit c.
Proof. destruct c as [[] [] [] [] [] [] [] []]; reflexivity. Qed.

Lemma isWhiteSpace_toLowerCase_unit c :
  isWhiteSpace (toLowerCase_unit c) = isWhiteSpace c.
Proof. destruct c as [[] [] [] [] [] [] [] []]; reflexivity. Qed.

Lemma toLowerCase_unit_at c :
  toLowerCase_unit c = "@"%char ↔ c = "@"%char.
Proof.
  split; [|by intros ->].
  destruct c as [[] [] [] [] [] [] [] []]; vm_compute; congruence.
Qed.

Lemma toLowerCase_idem s : toLowerCase (toLowerCase s) = toLowerCase s.
Proof.
  induction s as [|c s IH]; simpl; [done|].
  by rewrite toLowerCase_unit_idem, IH.
Qed.

Lemma toLowerCase_app s1 s2 :
  toLowerCase (s1 +:+ s2) = toLowerCase s1 +:+ toLowerCase s2.
Proof. induction s1 as [|c s1 IH]; simpl; [done|]. by rewrite IH. Qed.

Lemma toLowerCase_trimStart s :
  trimStart (toLowerCase s) = toLowerCase (trimStart s).
Proof.
  induction s as [|c s IH]; simpl; [done|].
  rewrite isWhiteSpace_toLowerCase_unit. by destruct (isWhiteSpace c).
Qed.

Lemma toLowerCase_trimEnd s :
  trimEnd (toLowerCase s) = toLowerCase (trimEnd s).
Proof.
  induction s as [|c s IH]; simpl; [done|].
  rewrite IH, isWhiteSpace_toLowerCase_unit.
  destruct (trimEnd s); simpl; [by destruct (isWhiteSpace c) | done].
Qed.

Lemma toLowerCase_trim s : trim (toLowerCase s) = toLowerCase (trim s).
Proof. unfold trim. by rewrite toLowerCase_trimStart, toLowerCase_trimEnd. Qed.

Lemma trimEnd_idem s : trimEnd (trimEnd s) = trimEnd s.
Proof.
  induction s as [|c s IH]; simpl; [done|].
  destruct (trimEnd s) as [|d r] eqn:Hr.
  - destruct (isWhiteSpace c) eqn:Hc; simpl; [done | by rewrite Hc].
  - change (trimEnd (String c (String d r))) with
      (match trimEnd (String d r) with
       | "" => if isWhiteSpace c then "" else String c ""
       | r' => String c r'
       end).
    by rewrite IH.
Qed.

Lemma trimEnd_head c r :
  isWhiteSpace c = false → ∃ r', trimEnd (String c r) = String c r'.
Proof.
  intros Hc. simpl. rewrite Hc. destruct (trimEnd r); eauto.
Qed.

Lemma trimStart_head c r :
  isWhiteSpace c = false → trimStart (String c r) = String c r.
Proof. intros Hc. simpl. by rewrite Hc. Qed.

Lemma trim_idem s : trim (trim s) = trim s.
Proof.
  unfold trim.
  destruct (trimStart_cases s) as [[-> _]|(c & r & -> & Hc & _)]; [done|].
  destruct (trimEnd_head c r Hc) as [r' Hr'].
  rewrite Hr', (trimStart_head c r' Hc), <- Hr'. apply trimEnd_idem.
Qed.

Lemma trimStart_app_unit s c r :
  isWhiteSpace c = false →
  trimStart (s +:+ String c r) = trimStart s +:+ String c r.
Proof.
  intros Hc. induction s as [|d s IH]; simpl; [by rewrite Hc|].
  by destruct (isWhiteSpace d).
Qed.

Lemma trimEnd_app_unit s c r :
  isWhiteSpace c = false →
  trimEnd (s +:+ String c r) = s +:+ trimEnd (String c r).
Proof.
  intros Hc. induction s as [|d s IH]; [done|].
  change (trimEnd (String d s +:+ String c r)) with
    (match trimEnd (s +:+ String c r) with
     | "" => if isWhiteSpace d then "" else String d ""
     | r' => String d r'
     end).
  rewrite IH. destruct (trimEnd_head c r Hc) as [r' ->].
  by destruct s.
Qed.

End NormalisationFacts.

(** ** More on registration and login requests *)

Section RegisterFacts.
Import Js Ui RegisterScreen.

Lemma first_split_app sep x y :
  sep ∉ list_ascii_of_string x →
  first (split sep (x +:+ String sep y)) = x.
Proof.
  induction x as [|c x IH]; simpl; intros Hx.
  - by rewrite Ascii.eqb_refl.
  - apply not_elem_of_cons in Hx as [Hc Hx].
    destruct (Ascii.eqb_spec c sep) as [->|_]; [done|].
    specialize (IH Hx). pose proof (split_nonempty sep (x +:+ String sep y)).
    destruct (split sep (x +:+ String sep y)); [done|].
    unfold first in *. simpl in *. by rewrite IH.
Qed.

Lemma elem_of_trimStart c s :
  c ∈ list_ascii_of_string (trimStart s) → c ∈ list_ascii_of_string s.
Proof.
  induction s as [|d s IH]; simpl; [done|].
  destruct (isWhiteSpace d); [|done].
  intros H. apply elem_of_cons. right. by apply IH.
Qed.

Lemma at_sign_of_toLowerCase s :
  "@"%char ∈ list_ascii_of_string (toLowerCase s) →
  "@"%char ∈ list_ascii_of_string s.
Proof.
  induction s as [|d s IH]; simpl; [done|].
  intros [Heq|Hin]%elem_of_cons; apply elem_of_cons.
  - left. symmetry. by apply toLowerCase_unit_at.
  - right. by apply IH.
Qed.

(** X1.  [handleRegister] never changes what the user typed, whatever the
    outcome; a form with a blank first name, last name or email or an
    empty password raises the notice, makes no network call and changes
    nothing; a complete form leaves [loading] false. *)
Theorem handleRegister_keeps_form response s :
  let s' := fst (handleRegister response s) in
  (firstName s' = firstName s ∧ lastName s' = lastName s
   ∧ email s' = email s ∧ password s' = password s)
  ∧ (trim (firstName s) = "" ∨ trim (lastName s) = ""
     ∨ trim (email s) = "" ∨ password s = "" →
     handleRegister response s = (s, [Alert FillAllFields]))
  ∧ (trim (firstName s) ≠ "" → trim (lastName s) ≠ "" →
     trim (email s) ≠ "" → password s ≠ "" →
     loading s' = false).
Proof.
  unfold handleRegister, truthy. split; [|split].
  - destruct (_ || _); [done|]. by destruct response as [[]|error].
  - intros H.
    assert (Hb : negb (negb (trim (firstName s) =? ""))
                 || negb (negb (trim (lastName s) =? ""))
                 || negb (negb (trim (email s) =? ""))
                 || negb (negb (password s =? "")) = true).
    { rewrite !negb_involutive, !orb_true_iff, !String.eqb_eq. tauto. }
    by rewrite Hb.
  - intros Hf Hl He Hp.
    apply String.eqb_neq in Hf, Hl, He, Hp. rewrite Hf, Hl, He, Hp. simpl.
    by destruct response as [[]|error].
Qed.

Lemma handleRegister_keeps_form_witness :
  let blank := mkState "Ada" "Lovelace" "   " "pw" false in
  let full := mkState "Ada" "Lovelace" "ada@x.edu" "pw" false in
  handleRegister (fulfilled tt) blank = (blank, [Alert FillAllFields])
  ∧ loading (fst (handleRegister (rejected (mkApiError None)) full)) = false.
Proof.
  split.
  - apply (proj1 (proj2 (handleRegister_keeps_form (fulfilled tt)
             (mkState "Ada" "Lovelace" "   " "pw" false)))).
    right. right. left. reflexivity.
  - apply (proj2 (proj2 (handleRegister_keeps_form
             (rejected (mkApiError None))
             (mkState "Ada" "Lovelace" "ada@x.edu" "pw" false))));
      discriminate.
Defined.

(** X2.  The email the registration form posts is the email the login
    form posts for the same input, and it is a fixed point of the
    normalisation: typed back into either form it is sent unchanged. *)
Theorem registered_email_is_login_email s pw :
  let e := body_email (register_body s) in
  ApiClient.data (LoginScreen.login_request (email s) pw)
  = Some (LoginScreen.mkCredentials e pw)
  ∧ ApiClient.data (LoginScreen.login_request e pw)
    = Some (LoginScreen.mkCredentials e pw)
  ∧ body_email
      (register_body (mkState (firstName s) (lastName s) e (password s)
                              (loading s))) = e.
Proof.
  assert (H : ∀ x, toLowerCase (trim (toLowerCase (trim x)))
                   = toLowerCase (trim x)).
  { intros x. by rewrite toLowerCase_trim, toLowerCase_idem, trim_idem. }
  simpl. split; [reflexivity|]. split.
  - unfold LoginScreen.login_request, ApiClient.post. simpl. by rewrite H.
  - apply H.
Qed.

(** X3.  For an email [local@domain] whose local part holds no '@', the
    username posted is the lower-cased local part without its leading
    white space; the domain plays no part, so two emails with the same
    local part register the same username. *)
Theorem username_ignores_domain s local domain :
  email s = local +:+ String "@" domain →
  "@"%char ∉ list_ascii_of_string local →
  username (register_body s) = toLowerCase (trimStart local).
Proof.
  intros He Hlocal. unfold register_body. simpl. rewrite He. unfold trim.
  rewrite trimStart_app_unit by reflexivity.
  rewrite trimEnd_app_unit by reflexivity.
  destruct (trimEnd_head "@" domain eq_refl) as [r' ->].
  rewrite toLowerCase_app. simpl.
  change (toLowerCase_unit "@") with "@"%char.
  apply first_split_app.
  intros H. apply Hlocal. by apply elem_of_trimStart, at_sign_of_toLowerCase.
Qed.

Lemma username_ignores_domain_witness :
  username (register_body (mkState "Ada" "L" " Ada.L@Akdeniz.edu.tr" "pw" false))
  = "ada.l"
  ∧ username (register_body (mkState "Ada" "L" " Ada.L@gmail.com " "pw" false))
    = "ada.l".
Proof.
  assert (Hlocal : "@"%char ∉ list_ascii_of_string " Ada.L").
  { simpl. rewrite !not_elem_of_cons. repeat split; try discriminate.
    apply not_elem_of_nil. }
  split.
  - apply (username_ignores_domain
             (mkState "Ada" "L" " Ada.L@Akdeniz.edu.tr" "pw" false)
             " Ada.L" "Akdeniz.edu.tr"); [reflexivity | exact Hlocal].
  - apply (username_ignores_domain
             (mkState "Ada" "L" " Ada.L@gmail.com " "pw" false)
             " Ada.L" "gmail.com "); [reflexivity | exact Hlocal].
Defined.

End RegisterFacts.

(** ** More on the session and the interceptor *)

Section SessionExtras.
Import Js AsyncStorage ApiClient AuthContext.

Lemma states_from_cache_agrees acts : ∀ w,
  cache_agrees w → Forall cache_agrees (states_from w acts).
Proof.
  induction acts as [|a acts IH]; intros w Hw; simpl.
  - by repeat constructor.
  - constructor; [done|]. by apply IH, act_cache_agrees.
Qed.

(** X4.  In a session whose mount effect could read the store, after the
    mount effect and after every login and logout, whatever the storage
    outcome of each, the token held in memory is the persisted one. *)
Theorem cached_token_is_persisted_token st0 acts :
  Forall (λ w, userToken (context w) = storage w !! TOKEN_KEY)
         (states_from (init Healthy (mount st0)) acts).
Proof. apply states_from_cache_agrees. reflexivity. Qed.

(** X5.  The interceptor changes nothing of a request but the header
    Authorization: method, url, body and every other header go out as the
    caller set them; with no stored token, or an empty one, the request
    goes out untouched; and when the read of the store rejects the request
    is not sent at all. *)
Theorem interceptor_changes_only_authorization :
  (∀ (B : Type) m st (c c' : config B),
     outbound m st c = fulfilled c' →
     method c' = method c ∧ url c' = url c ∧ data c' = data c
     ∧ ∀ h, h ≠ "Authorization" → headers c' !! h = headers c !! h)
  ∧ (∀ (B : Type) m st (c c' : config B),
       truthy_or_null (st !! TOKEN_KEY) = false →
       outbound m st c = fulfilled c' → c' = c)
  ∧ (∀ (B : Type) st (c : config B),
       outbound Faulty st c = rejected StorageFailure).
Proof.
  split; [|split].
  - intros B m st c c'. unfold outbound, request_interceptor.
    destruct m; simpl; [|discriminate].
    destruct (st !! "userToken") as [t|]; [|by intros [= <-]].
    destruct (truthy t); intros [= <-]; [|done]. simpl.
    repeat split. intros h Hh. by rewrite lookup_insert_ne.
  - intros B m st c c'. unfold outbound, request_interceptor, TOKEN_KEY.
    destruct m; simpl; [|discriminate].
    destruct (st !! "userToken") as [t|]; simpl; [|by intros _ [= <-]].
    intros ->. by intros [= <-].
  - reflexivity.
Qed.

Lemma interceptor_changes_only_authorization_witness :
  let call := LoginScreen.login_request "a@x.edu" "p" in
  let sent :=
    mkConfig "post" "auth/login/" {["Authorization" := "Bearer tok123"]}
             (Some (LoginScreen.mkCredentials "a@x.edu" "p")) in
  (outbound Healthy {[TOKEN_KEY := "tok123"]} call = fulfilled sent
   ∧ method sent = method call ∧ url sent = url call ∧ data sent = data call
   ∧ ∀ h, h ≠ "Authorization" → headers sent !! h = headers call !! h)
  ∧ (let untouched :=
       mkConfig "post" "auth/login/" ∅
                (Some (LoginScreen.mkCredentials "a@x.edu" "p")) in
     outbound Healthy {[TOKEN_KEY := ""]} call = fulfilled untouched
     ∧ untouched = call).
Proof.
  split.
  - split; [reflexivity|].
    apply (proj1 interceptor_changes_only_authorization _ Healthy
             {[TOKEN_KEY := "tok123"]}).
    reflexivity.
  - split; [reflexivity|].
    apply (proj1 (proj2 interceptor_changes_only_authorization) _ Healthy
             {[TOKEN_KEY := ""]} (LoginScreen.login_request "a@x.edu" "p"));
      reflexivity.
Defined.

(** X6.  At most one token is kept: a second successful login replaces
    the token of the first, and a successful logout after a login ends
    where a logout alone would have. *)
Theorem later_login_replaces_token w t1 t2 :
  fst (login Healthy t2 (fst (login Healthy t1 w))) = fst (login Healthy t2 w)
  ∧ fst (logout Healthy (fst (login Healthy t1 w))) = fst (logout Healthy w).
Proof.
  unfold login, logout. simpl. split.
  - by rewrite insert_insert_eq.
  - by rewrite delete_insert_eq.
Qed.

Lemma act_other_keys w a k :
  k ≠ TOKEN_KEY → storage (act w a) !! k = storage w !! k.
Proof.
  intros Hk. destruct a as [[] t|[]]; simpl; try done.
  - by rewrite lookup_insert_ne.
  - by rewrite lookup_delete_ne.
Qed.

(** X7.  A session writes the key 'userToken' only: every other key of the
    store holds at the end what it held at the start. *)
Theorem session_touches_only_token_key st0 m acts k :
  k ≠ TOKEN_KEY → storage (session st0 m acts) !! k = st0 !! k.
Proof.
  intros Hk. unfold session.
  assert (Hinit : storage (init m (mount st0)) !! k = st0 !! k).
  { by destruct m. }
  revert Hinit. generalize (init m (mount st0)).
  induction acts as [|a acts IH]; intros w Hw; [done|].
  apply IH. by rewrite act_other_keys.
Qed.

Lemma session_touches_only_token_key_witness :
  storage (session {["theme" := "dark"]} Healthy
             [Login Healthy "tok123"; Logout Faulty; Logout Healthy])
    !! "theme" = Some "dark".
Proof.
  etrans.
  - apply (session_touches_only_token_key {["theme" := "dark"]} Healthy
             [Login Healthy "tok123"; Logout Faulty; Logout Healthy] "theme").
    discriminate.
  - reflexivity.
Defined.

(** X8.  The token survives a restart: when the mount effect could read
    the store, a new launch over the store a session left behind settles,
    if its own read succeeds, to the context value the session ended
    with. *)
Theorem restart_restores_session st0 acts :
  let w := session st0 Healthy acts in
  context (session (storage w) Healthy []) = context w.
Proof.
  simpl. unfold session at 1. simpl. unfold init, init_then. simpl.
  rewrite <- (session_cache_agrees st0 acts).
  pose proof (session_settled st0 Healthy acts) as Hs.
  destruct (context (session st0 Healthy acts)) as [u l]. simpl in *.
  by subst l.
Qed.

End SessionExtras.

(** ** The login form *)

Section LoginFacts.
Import Js AsyncStorage ApiClient AuthContext Fx LoginForm.

Lemma handleLogin_filled response m s w :
  trim (email s) ≠ "" → password s ≠ "" →
  handleLogin response m s w =
    let call := Call (LoginScreen.login_request (email s) (password s)) in
    let s' := mkState (email s) (password s) false in
    match response with
    | fulfilled access =>
        match login m access w with
        | (w', fulfilled _) => (s', w', [call])
        | (w', rejected _) => (s', w', [call; Notify LoginFailed])
        end
    | rejected error => (s', w, [call; Notify (message error)])
    end.
Proof.
  intros He Hp. unfold handleLogin, truthy.
  apply String.eqb_neq in He, Hp. by rewrite He, Hp.
Qed.

(** X9.  [handleLogin] with a blank email or an empty password raises the
    notice and does nothing else: no network call, no change of the form
    or of the session; with both filled it makes exactly one call, the
    POST of the trimmed, lower-cased email and the password. *)
Theorem handleLogin_checks_credentials_first response m s w :
  (trim (email s) = "" ∨ password s = "" →
   handleLogin response m s w = (s, w, [Notify FillCredentials]))
  ∧ (trim (email s) ≠ "" → password s ≠ "" →
     calls (snd (handleLogin response m s w))
     = [LoginScreen.login_request (email s) (password s)]).
Proof.
  split.
  - intros H. unfold handleLogin, truthy.
    assert (Hb : negb (negb (trim (email s) =? ""))
                 || negb (negb (password s =? "")) = true).
    { rewrite !negb_involutive, orb_true_iff, !String.eqb_eq. tauto. }
    by rewrite Hb.
  - intros He Hp. rewrite (handleLogin_filled _ _ _ _ He Hp). simpl.
    destruct response as [access|error]; [|reflexivity].
    by destruct m.
Qed.

Lemma handleLogin_checks_credentials_first_witness :
  let w := session ∅ Healthy [] in
  handleLogin (fulfilled "tok123") Healthy (mkState "  " "p" false) w
  = (mkState "  " "p" false, w, [Notify FillCredentials])
  ∧ calls (snd (handleLogin (fulfilled "tok123") Healthy
                  (mkState " A@x.edu" "p" false) w))
    = [LoginScreen.login_request " A@x.edu" "p"].
Proof.
  split.
  - apply (proj1 (handleLogin_checks_credentials_first (fulfilled "tok123")
             Healthy (mkState "  " "p" false) (session ∅ Healthy []))).
    left. reflexivity.
  - apply (proj2 (handleLogin_checks_credentials_first (fulfilled "tok123")
             Healthy (mkState " A@x.edu" "p" false) (session ∅ Healthy [])));
      discriminate.
Defined.

(** X10.  A login that goes through, in any session: the form stops
    loading without a notice, the store holds the access token, the
    context is authenticated with it, and every request sent afterwards
    carries it as its bearer credential, whatever header the caller set. *)
Theorem handleLogin_success_end_to_end st0 m0 acts s access :
  trim (email s) ≠ "" → password s ≠ "" → access ≠ "" →
  let result := handleLogin (fulfilled access) Healthy s (session st0 m0 acts) in
  let w' := snd (fst result) in
  fst (fst result) = mkState (email s) (password s) false
  ∧ snd result = [Call (LoginScreen.login_request (email s) (password s))]
  ∧ storage w' !! TOKEN_KEY = Some access
  ∧ context w' = expose (authenticated access)
  ∧ ∀ (B : Type) (c : config B),
      ∃ c', outbound Healthy (storage w') c = fulfilled c'
            ∧ authorization c' = Some ("Bearer " +:+ access).
Proof.
  intros He Hp Ha. simpl. rewrite (handleLogin_filled _ _ _ _ He Hp). simpl.
  split; [reflexivity | split; [reflexivity|]].
  split; [by rewrite lookup_insert_eq|].
  split; [by rewrite session_settled|].
  intros B c. destruct (outbound_healthy
    (<[TOKEN_KEY := access]> (storage (session st0 m0 acts))) c) as [c' Hc'].
  exists c'. split; [exact Hc'|].
  rewrite (outbound_authorization _ _ _ _ Hc'), lookup_insert_eq.
  by rewrite truthy_nonempty.
Qed.

Lemma handleLogin_success_end_to_end_witness :
  let result := handleLogin (fulfilled "tok123") Healthy
                  (mkState "a@x.edu" "p" false) (session ∅ Healthy []) in
  let w' := snd (fst result) in
  fst (fst result) = mkState "a@x.edu" "p" false
  ∧ snd result = [Call (LoginScreen.login_request "a@x.edu" "p")]
  ∧ storage w' !! TOKEN_KEY = Some "tok123"
  ∧ context w' = expose (authenticated "tok123")
  ∧ ∀ (B : Type) (c : config B),
      ∃ c', outbound Healthy (storage w') c = fulfilled c'
            ∧ authorization c' = Some "Bearer tok123".
Proof.
  apply (handleLogin_success_end_to_end ∅ Healthy []
           (mkState "a@x.edu" "p" false) "tok123"); discriminate.
Defined.

(** X11.  A login that fails leaves the session as it was and tells the
    user: when the POST is rejected [login] is not called, store and
    context are untouched and the notice is the server's detail, else the
    serialised payload, else the fixed text; when the POST succeeds and
    the write of the token rejects, store and context are untouched and
    the fixed text is shown.  Either way the form stops loading. *)
Theorem handleLogin_failure_keeps_session m s w :
  trim (email s) ≠ "" → password s ≠ "" →
  (∀ error,
     handleLogin (rejected error) m s w
     = (mkState (email s) (password s) false, w,
        [Call (LoginScreen.login_request (email s) (password s));
         Notify (match detail error, stringified error with
                 | Some d, _ => Detail d
                 | None, Some j => Stringified j
                 | None, None => LoginFailed
                 end)]))
  ∧ (∀ access,
       let result := handleLogin (fulfilled access) Faulty s w in
       fst (fst result) = mkState (email s) (password s) false
       ∧ storage (snd (fst result)) = storage w
       ∧ context (snd (fst result)) = context w
       ∧ snd result
         = [Call (LoginScreen.login_request (email s) (password s));
            Notify LoginFailed]).
Proof.
  intros He Hp. split.
  - intros error. rewrite (handleLogin_filled _ _ _ _ He Hp). simpl.
    unfold message. by destruct (detail error), (stringified error).
  - intros access. simpl. by rewrite (handleLogin_filled _ _ _ _ He Hp).
Qed.

Lemma handleLogin_failure_keeps_session_witness :
  let s := mkState "a@x.edu" "p" false in
  let w := session {[TOKEN_KEY := "old"]} Healthy [] in
  handleLogin (rejected (mkLoginError None (Some "{}"))) Healthy s w
  = (s, w, [Call (LoginScreen.login_request "a@x.edu" "p");
            Notify (Stringified "{}")])
  ∧ context (snd (fst (handleLogin (fulfilled "new") Faulty s w)))
    = expose (authenticated "old").
Proof.
  split.
  - apply (proj1 (handleLogin_failure_keeps_session Healthy
             (mkState "a@x.edu" "p" false)
             (session {[TOKEN_KEY := "old"]} Healthy [])
             ltac:(discriminate) ltac:(discriminate))
             (mkLoginError None (Some "{}"))).
  - etrans.
    + apply (proj2 (handleLogin_failure_keeps_session Faulty
               (mkState "a@x.edu" "p" false)
               (session {[TOKEN_KEY := "old"]} Healthy [])
               ltac:(discriminate) ltac:(discriminate)) "new").
    + reflexivity.
Defined.

End LoginFacts.

(** ** The waste report form as a whole *)

Section HomeFormFacts.
Import Js Ui HomeScreen HomeForm.

(** What every state of the form satisfies. *)
Lemma requests_of_submit now response s :
  Fx.requests (snd (submitReport now response s))
  = if truthy (trim (binId s))
    then [ApiClient.post "reports/create/" (report_body now s)]
    else [].
Proof.
  unfold submitReport. destruct (truthy _); simpl; [|reflexivity].
  by destruct response as [[]|error].
Qed.

Lemma step_keeps_form_invariant s a :
  wasteCategory s ∈ WASTE_CATEGORIES →
  (imageUri s = None → imageBase64 s = None) →
  loading s = false →
  wasteCategory (fst (step s a)) ∈ WASTE_CATEGORIES
  ∧ (imageUri (fst (step s a)) = None → imageBase64 (fst (step s a)) = None)
  ∧ loading (fst (step s a)) = false.
Proof.
  intros Hcat Hphoto Hload.
  destruct a as [text|i|status result|status result| |now response]; simpl.
  - done.
  - destruct (WASTE_CATEGORIES !! i) as [cat|] eqn:Hi; simpl; [|done].
    split; [|done]. by apply list_elem_of_lookup_2 in Hi.
  - unfold pickImage. destruct (is_granted status); simpl; [|done].
    destruct result as [|assets]; simpl; [done|].
    by destruct (assets !! 0%nat).
  - unfold takePhoto. destruct (is_granted status); simpl; [|done].
    destruct result as [|assets]; simpl; [done|].
    by destruct (assets !! 0%nat).
  - by destruct (truthy_or_null (imageUri s)).
  - rewrite Hload. unfold submitReport.
    destruct (negb _); simpl; [done|].
    by destruct response as [[]|error].
Qed.

Lemma step_sends_listed_category s a c :
  wasteCategory s ∈ WASTE_CATEGORIES →
  c ∈ snd (step s a) →
  ∃ body, ApiClient.data c = Some body
          ∧ waste_category body ∈ WASTE_CATEGORIES
          ∧ verification_method body = "QR".
Proof.
  intros Hcat.
  destruct a as [text|i|status result|status result| |now response]; simpl;
    try by intros ?%elem_of_nil.
  - destruct (WASTE_CATEGORIES !! i); by intros ?%elem_of_nil.
  - destruct (truthy_or_null (imageUri s)); by intros ?%elem_of_nil.
  - destruct (loading s); [by intros ?%elem_of_nil|].
    destruct (submitReport now response s) as [s' es] eqn:Hsub.
    simpl. replace es with (snd (submitReport now response s))
      by (by rewrite Hsub).
    rewrite requests_of_submit.
    destruct (truthy _); [|by intros ?%elem_of_nil].
    intros ->%list_elem_of_singleton. by exists (report_body now s).
Qed.

Lemma run_keeps_form_invariant acts : ∀ s,
  wasteCategory s ∈ WASTE_CATEGORIES →
  (imageUri s = None → imageBase64 s = None) →
  loading s = false →
  (wasteCategory (fst (run acts s)) ∈ WASTE_CATEGORIES
   ∧ (imageUri (fst (run acts s)) = None → imageBase64 (fst (run acts s)) = None)
   ∧ loading (fst (run acts s)) = false)
  ∧ ∀ c, c ∈ snd (run acts s) →
         ∃ body, ApiClient.data c = Some body
                 ∧ waste_category body ∈ WASTE_CATEGORIES
                 ∧ verification_method body = "QR".
Proof.
  induction acts as [|a acts IH]; intros s Hcat Hphoto Hload; simpl.
  - split; [done|]. by intros c ?%elem_of_nil.
  - destruct (step_keeps_form_invariant s a Hcat Hphoto Hload)
      as (Hcat' & Hphoto' & Hload').
    pose proof (step_sends_listed_category s a) as Hsent.
    destruct (step s a) as [s1 sent1]. simpl in *.
    destruct (IH s1 Hcat' Hphoto' Hload') as [Hinv Hrest].
    destruct (run acts s1) as [s2 sent2]. simpl in *.
    split; [done|].
    intros c [Hc|Hc]%elem_of_app; [by apply Hsent | by apply Hrest].
Qed.

Lemma initial_category_listed : wasteCategory initial ∈ WASTE_CATEGORIES.
Proof. apply list_elem_of_here. Qed.

(** X12.  Whatever the user does on the Home screen, in any order and with
    any outcome of the pickers and of the calls, the selected waste
    category is one of PLASTIC, PAPER, GLASS, ORGANIC, and so is the
    waste_category of every report that is sent. *)
Theorem home_category_is_always_listed acts :
  wasteCategory (fst (run acts initial)) ∈ WASTE_CATEGORIES
  ∧ ∀ c, c ∈ snd (run acts initial) →
         ∃ body, ApiClient.data c = Some body
                 ∧ waste_category body ∈ WASTE_CATEGORIES.
Proof.
  destruct (run_keeps_form_invariant acts initial initial_category_listed
              (λ _, eq_refl) eq_refl) as [(Hcat & _ & _) Hsent].
  split; [done|]. intros c Hc.
  destruct (Hsent c Hc) as (body & Hb & Hw & _). eauto.
Qed.

Lemma home_category_is_always_listed_witness :
  let acts := [ChangeBinId "B-17"; PressCategory 2; PressCategory 9;
               PressSubmit "2024-05-01T10:00:00.000Z" (fulfilled tt)] in
  let sent := ApiClient.post "reports/create/"
                (mkBody "B-17" "GLASS" "QR" "36.8969" "30.6553"
                        "2024-05-01T10:00:00.000Z" None) in
  snd (run acts initial) = [sent]
  ∧ ∃ body, ApiClient.data sent = Some body
            ∧ waste_category body ∈ WASTE_CATEGORIES.
Proof.
  split; [reflexivity|].
  apply (proj2 (home_category_is_always_listed
           [ChangeBinId "B-17"; PressCategory 2; PressCategory 9;
            PressSubmit "2024-05-01T10:00:00.000Z" (fulfilled tt)])).
  apply list_elem_of_here.
Defined.

(** X13.  Whatever the user does on the Home screen, a photo payload is
    held only together with a preview ([imageUri] null implies
    [imageBase64] null), and between two actions the form is never left
    loading. *)
Theorem home_payload_only_with_preview acts :
  let s := fst (run acts initial) in
  (imageUri s = None → imageBase64 s = None) ∧ loading s = false.
Proof.
  destruct (run_keeps_form_invariant acts initial initial_category_listed
              (λ _, eq_refl) eq_refl) as [(_ & Hphoto & Hload) _].
  by split.
Qed.

Lemma home_payload_only_with_preview_witness :
  let acts := [TakePhoto granted
                 (Picked [mkAsset "file:///p.jpg" (Some "aGVsbG8=")]);
               PressRemove] in
  imageUri (fst (run acts initial)) = None
  ∧ imageBase64 (fst (run acts initial)) = None.
Proof.
  split; [reflexivity|].
  apply (proj1 (home_payload_only_with_preview
           [TakePhoto granted
              (Picked [mkAsset "file:///p.jpg" (Some "aGVsbG8=")]);
            PressRemove])).
  reflexivity.
Defined.

(** X14.  The photo handlers of the Home screen: without the camera
    permission they raise the notice and change nothing; a cancelled
    picker, or one that returns no asset, changes nothing; a picked asset
    replaces preview and payload together and touches nothing else, and an
    asset without base64 data leaves a preview with a null payload. *)
Theorem home_photo_handlers status result s :
  (status ≠ granted →
   pickImage status result s = (s, [PermissionNeeded])
   ∧ takePhoto status result s = (s, [PermissionNeeded]))
  ∧ (result = Canceled ∨ result = Picked [] →
     pickImage granted result s = (s, [])
     ∧ takePhoto granted result s = (s, []))
  ∧ (∀ a rest, result = Picked (a :: rest) →
       pickImage granted result s
       = (mkState (binId s) (wasteCategory s) (loading s)
                  (Some (uri a)) (base64 a), [])
       ∧ takePhoto granted result s = pickImage granted result s).
Proof.
  split; [|split].
  - intros Hs. unfold pickImage, takePhoto. by destruct status.
  - by intros [->| ->].
  - by intros a rest ->.
Qed.

Lemma home_photo_handlers_witness :
  let s := mkState "B-17" "GLASS" false None None in
  (pickImage denied Canceled s = (s, [PermissionNeeded])
   ∧ takePhoto denied Canceled s = (s, [PermissionNeeded]))
  ∧ (pickImage granted Canceled s = (s, [])
     ∧ takePhoto granted Canceled s = (s, []))
  ∧ (pickImage granted (Picked [mkAsset "file:///p.jpg" None]) s
     = (mkState "B-17" "GLASS" false (Some "file:///p.jpg") None, [])
     ∧ takePhoto granted (Picked [mkAsset "file:///p.jpg" None]) s
       = pickImage granted (Picked [mkAsset "file:///p.jpg" None]) s).
Proof.
  split; [|split].
  - apply (proj1 (home_photo_handlers denied Canceled
             (mkState "B-17" "GLASS" false None None))).
    discriminate.
  - apply (proj1 (proj2 (home_photo_handlers granted Canceled
             (mkState "B-17" "GLASS" false None None)))).
    by left.
  - apply (proj2 (proj2 (home_photo_handlers granted
             (Picked [mkAsset "file:///p.jpg" None])
             (mkState "B-17" "GLASS" false None None)))
             (mkAsset "file:///p.jpg" None) []).
    reflexivity.
Defined.

(** X15.  After a report has been sent successfully the same tap again
    sends nothing: the bin identifier was reset, so the next
    [submitReport], whatever the clock and the network, is stopped by the
    validation and changes nothing. *)
Theorem home_second_submit_is_blocked now s now' response' :
  trim (binId s) ≠ "" →
  let s' := fst (submitReport now (fulfilled tt) s) in
  submitReport now' response' s' = (s', [Alert EnterBinId]).
Proof.
  intros H. simpl. apply home_blank_bin_rejected.
  unfold submitReport, truthy. apply String.eqb_neq in H. by rewrite H.
Qed.

Lemma home_second_submit_is_blocked_witness :
  let s := mkState "B-17" "GLASS" false None None in
  let s' := fst (submitReport "2024-05-01T10:00:00.000Z" (fulfilled tt) s) in
  submitReport "2024-05-01T10:00:01.000Z" (fulfilled tt) s'
  = (s', [Alert EnterBinId]).
Proof.
  apply (home_second_submit_is_blocked "2024-05-01T10:00:00.000Z"
           (mkState "B-17" "GLASS" false None None)
           "2024-05-01T10:00:01.000Z" (fulfilled tt)).
  discriminate.
Defined.

(** X16.  After a failed submission a retry sends the report again: the
    failure leaves the form as it was, not loading, and the next
    [submitReport] does, for the same clock and network, what it would
    have done on the form before the failure. *)
Theorem home_retry_sends_same_report now error s now' response' :
  trim (binId s) ≠ "" →
  let s' := fst (submitReport now (rejected error) s) in
  s' = setLoading false s
  ∧ snd (submitReport now' response' s') = snd (submitReport now' response' s)
  ∧ Fx.requests (snd (submitReport now' response' s'))
    = [ApiClient.post "reports/create/" (report_body now' s)].
Proof.
  intros H. apply String.eqb_neq in H.
  assert (Hs : fst (submitReport now (rejected error) s) = setLoading false s).
  { unfold submitReport, truthy. by rewrite H. }
  simpl. rewrite Hs. split; [reflexivity|]. split.
  - unfold submitReport, truthy. simpl. by rewrite H.
  - rewrite requests_of_submit. unfold truthy. simpl. by rewrite H.
Qed.

Lemma home_retry_sends_same_report_witness :
  let s := mkState "B-17" "GLASS" false None None in
  let s' := fst (submitReport "2024-05-01T10:00:00.000Z"
                   (rejected (mkApiError None)) s) in
  s' = s
  ∧ snd (submitReport "2024-05-01T10:00:09.000Z" (fulfilled tt) s')
    = snd (submitReport "2024-05-01T10:00:09.000Z" (fulfilled tt) s)
  ∧ Fx.requests (snd (submitReport "2024-05-01T10:00:09.000Z" (fulfilled tt) s'))
    = [ApiClient.post "reports/create/"
         (mkBody "B-17" "GLASS" "QR" "36.8969" "30.6553"
                 "2024-05-01T10:00:09.000Z" None)].
Proof.
  apply (home_retry_sends_same_report "2024-05-01T10:00:00.000Z"
           (mkApiError None) (mkState "B-17" "GLASS" false None None)
           "2024-05-01T10:00:09.000Z" (fulfilled tt)).
  discriminate.
Defined.

End HomeFormFacts.

(** ** The issue report form as a whole *)

Section DetectiveFormFacts.
Import Js Ui DetectiveScreen DetectiveForm.
Context {Number : Type} (toFixed6 : Number → Number).

Lemma detective_step_invariant (s : State Number) a :
  (modalVisible s = true → is_Some (selectedLocation s)) →
  loading s = false →
  (modalVisible (fst (step toFixed6 s a)) = true →
   is_Some (selectedLocation (fst (step toFixed6 s a))))
  ∧ loading (fst (step toFixed6 s a)) = false.
Proof.
  intros Hmodal Hload.
  destruct a as [coordinate| |text|status result|status result| | |response refetch];
    simpl.
  - split; [eauto | done].
  - revert Hmodal.
    destruct (selectedLocation s) eqn:Hloc; intros Hmodal; simpl;
      [|by rewrite Hloc].
    rewrite Hloc. split; [eauto | done].
  - done.
  - unfold takePhoto. destruct (HomeForm.is_granted status); simpl; [|done].
    destruct result as [|assets]; simpl; [done|].
    by destruct (assets !! 0%nat).
  - unfold pickImage. destruct (HomeForm.is_granted status); simpl; [|done].
    destruct result as [|assets]; simpl; [done|].
    by destruct (assets !! 0%nat).
  - by destruct (truthy (imageUri s)).
  - split; [discriminate | done].
  - rewrite Hload. unfold submitReport. revert Hmodal.
    destruct (selectedLocation s) eqn:Hloc; intros Hmodal; simpl;
      [|by rewrite Hloc].
    destruct response as [[]|error]; simpl.
    + destruct refetch; simpl; by split.
    + rewrite Hloc. split; [eauto | done].
Qed.

Lemma detective_run_invariant acts : ∀ s : State Number,
  (modalVisible s = true → is_Some (selectedLocation s)) →
  loading s = false →
  (modalVisible (fst (run toFixed6 acts s)) = true →
   is_Some (selectedLocation (fst (run toFixed6 acts s))))
  ∧ loading (fst (run toFixed6 acts s)) = false.
Proof.
  induction acts as [|a acts IH]; intros s Hmodal Hload; simpl; [done|].
  destruct (detective_step_invariant s a Hmodal Hload) as [Hmodal' Hload'].
  destruct (step toFixed6 s a) as [s1 sent1]. simpl in *.
  specialize (IH s1 Hmodal' Hload').
  by destruct (run toFixed6 acts s1).
Qed.

(** X17.  Whatever the user does on the Detective screen, the modal is
    open only while a location is selected and the form is not left
    loading; so the submit button of the open modal always posts the
    report: the guard on the missing location never stops it. *)
Theorem detective_open_modal_has_location acts response refetch :
  let s := fst (run toFixed6 acts initial) in
  modalVisible s = true →
  ∃ location,
    selectedLocation s = Some location
    ∧ head (snd (step toFixed6 s (PressSubmit response refetch)))
      = Some (ApiClient.post "detective/reports/"
                (issue_body toFixed6 location s)).
Proof.
  simpl. intros Hopen.
  destruct (detective_run_invariant acts initial) as [Hmodal Hload];
    [discriminate | reflexivity |].
  destruct (Hmodal Hopen) as [location Hloc].
  exists location. split; [done|].
  simpl. rewrite Hload. unfold submitReport. rewrite Hloc.
  destruct response as [[]|error]; [|reflexivity].
  by destruct refetch.
Qed.

(** X18.  After an issue has been reported successfully the same tap again
    does nothing: the location was reset, so the next [submitReport]
    returns at once, without a call and without a notice. *)
Theorem detective_second_submit_is_blocked
    refetch (s : State Number) location response' refetch' :
  selectedLocation s = Some location →
  let s' := fst (submitReport toFixed6 (fulfilled tt) refetch s) in
  submitReport toFixed6 response' refetch' s' = (s', []).
Proof.
  intros Hloc. simpl.
  assert (Hnone : selectedLocation
            (fst (submitReport toFixed6 (fulfilled tt) refetch s)) = None).
  { unfold submitReport. rewrite Hloc. by destruct refetch. }
  unfold submitReport at 1. by rewrite Hnone.
Qed.

(** X19.  The list shown after a successful report is what the re-fetch
    brought: the results of a page or the bare list; when the re-fetch
    fails the list is the one shown before, the failure is only logged and
    the user is still told the report went through. *)
Theorem detective_refetch_decides_list (s : State Number) location :
  selectedLocation s = Some location →
  (∀ payload,
     reports (fst (submitReport toFixed6 (fulfilled tt) (fulfilled payload) s))
     = results_or_data payload)
  ∧ (∀ error,
       reports (fst (submitReport toFixed6 (fulfilled tt) (rejected error) s))
       = reports s
       ∧ snd (submitReport toFixed6 (fulfilled tt) (rejected error) s)
         = [Request (ApiClient.post "detective/reports/"
                       (issue_body toFixed6 location s));
            Alert IssueReported;
            Request reports_request;
            ConsoleError]).
Proof.
  intros Hloc. unfold submitReport. rewrite Hloc. by split.
Qed.

(** X20.  After a failed report a retry posts the same body: the failure
    leaves the form as it was, not loading, with the modal as it was, and
    the next [submitReport] does what it would have done before. *)
Theorem detective_retry_sends_same_report
    error refetch (s : State Number) location response' refetch' :
  selectedLocation s = Some location →
  let s' := fst (submitReport toFixed6 (rejected error) refetch s) in
  s' = setLoading false s
  ∧ snd (submitReport toFixed6 response' refetch' s')
    = snd (submitReport toFixed6 response' refetch' s)
  ∧ head (snd (submitReport toFixed6 response' refetch' s'))
    = Some (Request (ApiClient.post "detective/reports/"
                       (issue_body toFixed6 location s))).
Proof.
  intros Hloc. simpl.
  assert (Hs : fst (submitReport toFixed6 (rejected error) refetch s)
               = setLoading false s).
  { unfold submitReport. by rewrite Hloc. }
  rewrite Hs. unfold submitReport. simpl. rewrite Hloc.
  split; [reflexivity|].
  destruct response' as [[]|error']; [|by split].
  destruct refetch'; by split.
Qed.

End DetectiveFormFacts.

Section DetectiveFormWitnesses.
Import Js Ui DetectiveScreen DetectiveForm.

Lemma detective_open_modal_has_location_witness :
  let place := mkCoordinate 36896900%Z 30655300%Z in
  let acts := [MapPress place; PressReport; ChangeDescription "spill"] in
  ∃ location,
    selectedLocation (fst (run Datatypes.id acts initial)) = Some location
    ∧ head (snd (step Datatypes.id (fst (run Datatypes.id acts initial))
                   (PressSubmit (rejected (mkApiError None))
                                (rejected (mkApiError None)))))
      = Some (ApiClient.post "detective/reports/"
                (issue_body Datatypes.id location (fst (run Datatypes.id acts initial)))).
Proof.
  apply (detective_open_modal_has_location Datatypes.id
           [MapPress (mkCoordinate 36896900%Z 30655300%Z); PressReport;
            ChangeDescription "spill"]).
  reflexivity.
Defined.

Lemma detective_second_submit_is_blocked_witness :
  let place := mkCoordinate 36896900%Z 30655300%Z in
  let s : State Z := mkState (Some place) None [] true "spill" "" "" false in
  let s' := fst (submitReport Datatypes.id (fulfilled tt) (fulfilled (Bare [])) s) in
  submitReport Datatypes.id (fulfilled tt) (fulfilled (Bare [])) s' = (s', []).
Proof.
  apply (detective_second_submit_is_blocked Datatypes.id (fulfilled (Bare []))
           (mkState (Some (mkCoordinate 36896900%Z 30655300%Z)) None []
                    true "spill" "" "" false)
           (mkCoordinate 36896900%Z 30655300%Z)).
  reflexivity.
Defined.

Lemma detective_refetch_decides_list_witness :
  let place := mkCoordinate 36896900%Z 30655300%Z in
  let old := mkItem "7" 36896900%Z 30655300%Z "OTHER" "Other" "old" None "OPEN" in
  let s : State Z := mkState (Some place) None [old] true "spill" "" "" false in
  reports (fst (submitReport Datatypes.id (fulfilled tt) (fulfilled (Page [])) s)) = []
  ∧ reports (fst (submitReport Datatypes.id (fulfilled tt)
                    (rejected (mkApiError None)) s)) = [old].
Proof.
  pose proof (detective_refetch_decides_list Datatypes.id
    (mkState (Some (mkCoordinate 36896900%Z 30655300%Z)) None
       [mkItem "7" 36896900%Z 30655300%Z "OTHER" "Other" "old" None "OPEN"]
       true "spill" "" "" false)
    (mkCoordinate 36896900%Z 30655300%Z) eq_refl) as [Hok Hfail].
  split; [apply (Hok (Page [])) | apply (Hfail (mkApiError None))].
Defined.

Lemma detective_retry_sends_same_report_witness :
  let place := mkCoordinate 36896900%Z 30655300%Z in
  let s : State Z := mkState (Some place) None [] true "spill" "" "" false in
  let s' := fst (submitReport Datatypes.id (rejected (mkApiError None))
                   (fulfilled (Bare [])) s) in
  s' = s
  ∧ snd (submitReport Datatypes.id (fulfilled tt) (fulfilled (Bare [])) s')
    = snd (submitReport Datatypes.id (fulfilled tt) (fulfilled (Bare [])) s)
  ∧ head (snd (submitReport Datatypes.id (fulfilled tt) (fulfilled (Bare [])) s'))
    = Some (Request (ApiClient.post "detective/reports/"
                       (mkBody 36896900%Z 30655300%Z "spill" "OTHER" ""))).
Proof.
  apply (detective_retry_sends_same_report Datatypes.id (mkApiError None)
           (fulfilled (Bare []))
           (mkState (Some (mkCoordinate 36896900%Z 30655300%Z)) None []
                    true "spill" "" "" false)
           (mkCoordinate 36896900%Z 30655300%Z)
           (fulfilled tt) (fulfilled (Bare []))).
  reflexivity.
Defined.

End DetectiveFormWitnesses.

(** ** Leaderboard rows and task cards *)

Section LeaderboardFacts.
Import Js LeaderboardView.

(** X21.  For every id that is not negative [avatarColor] is one of the
    eight colours of the table and repeats every eight ids; for a negative
    id that is not a multiple of eight the index is negative and the
    colour is undefined. *)
Theorem avatarColor_cycles_through_table (id : Z) :
  ((0 ≤ id)%Z →
   ∃ colour, avatarColor id = Some colour
             ∧ colour ∈ AVATAR_COLORS
             ∧ avatarColor (id + 8) = Some colour)
  ∧ ((id < 0)%Z → Z.rem id 8 ≠ 0%Z → avatarColor id = None).
Proof.
  unfold avatarColor, at_index.
  change (Z.of_nat (length AVATAR_COLORS)) with 8%Z. split.
  - intros Hid.
    pose proof (Z.rem_bound_pos id 8 Hid eq_refl) as Hr.
    assert (Hstep : Z.rem (id + 8) 8 = Z.rem id 8).
    { rewrite !Z.rem_mod_nonneg by lia.
      replace (id + 8)%Z with (id + 1 * 8)%Z by lia. apply Z_mod_plus_full. }
    rewrite Hstep.
    destruct (Z.ltb_spec (Z.rem id 8) 0) as [?|_]; [lia|].
    destruct (lookup_lt_is_Some_2 AVATAR_COLORS (Z.to_nat (Z.rem id 8)))
      as [colour Hc]; [simpl; lia|].
    exists colour. split; [done|]. split; [|done].
    by apply list_elem_of_lookup_2 in Hc.
  - intros Hid Hrem.
    pose proof (Z.rem_nonpos id 8 ltac:(lia) ltac:(lia)) as Hr.
    destruct (Z.ltb_spec (Z.rem id 8) 0) as [_|?]; [done | lia].
Qed.

Lemma avatarColor_cycles_through_table_witness :
  (avatarColor 10 = Some "#FF9800"
   ∧ "#FF9800" ∈ AVATAR_COLORS
   ∧ avatarColor (10 + 8) = Some "#FF9800")
  ∧ avatarColor (-3) = None.
Proof.
  split.
  - destruct (proj1 (avatarColor_cycles_through_table 10) ltac:(lia))
      as (colour & Hc & Hin & Hnext).
    assert (colour = "#FF9800") as -> by (vm_compute in Hc; congruence).
    auto.
  - apply (proj2 (avatarColor_cycles_through_table (-3))); [lia | discriminate].
Defined.

(** X22.  A row shows a medal exactly for the ranks 1, 2 and 3, and every
    row with a medal is highlighted; but the highlight goes to every rank
    up to 3, so a rank of 0 or below is highlighted and shows its number. *)
Theorem medal_and_highlight (rank : Z) :
  (is_Some (MEDAL rank) ↔ (1 ≤ rank ≤ 3)%Z)
  ∧ (is_Some (MEDAL rank) → isTop3 rank = true)
  ∧ ((rank ≤ 0)%Z → isTop3 rank = true ∧ rank_shown rank = RankText rank)
  ∧ ((3 < rank)%Z → isTop3 rank = false ∧ rank_shown rank = RankText rank).
Proof.
  unfold rank_shown, MEDAL, isTop3.
  destruct (Z.eqb_spec rank 1) as [->|H1];
    [|destruct (Z.eqb_spec rank 2) as [->|H2];
      [|destruct (Z.eqb_spec rank 3) as [->|H3]]].
  - repeat split; try lia; eauto.
  - repeat split; try lia; eauto.
  - repeat split; try lia; eauto.
  - split; [|split; [|split]].
    + split; [by intros [? [=]] | lia].
    + by intros [? [=]].
    + intros H. split; [|done]. apply Z.leb_le. lia.
    + intros H. split; [|done]. apply Z.leb_gt. lia.
Qed.

Lemma medal_and_highlight_witness :
  (isTop3 1 = true ∧ isTop3 0 = true ∧ rank_shown 0 = RankText 0)
  ∧ (isTop3 4 = false ∧ rank_shown 4 = RankText 4).
Proof.
  split; [split|].
  - apply (proj1 (proj2 (medal_and_highlight 1))).
    apply (proj2 (proj1 (medal_and_highlight 1))). lia.
  - apply (proj1 (proj2 (proj2 (medal_and_highlight 0)))). lia.
  - apply (proj2 (proj2 (proj2 (medal_and_highlight 4)))). lia.
Defined.

Lemma last_cons_nonempty {A : Type} (x : A) l :
  l ≠ [] → last (x :: l) = last l.
Proof. destruct l; [done|]. intros _. apply last_cons_cons. Qed.

(** The last piece of [s.split(sep)]: it holds no [sep]; either it is all
    of [s] and the only piece, or it is what follows the last [sep] and
    there are at least two pieces. *)
Lemma last_split_suffix sep s :
  ∃ p, last (split sep s) = Some p
       ∧ (sep ∉ list_ascii_of_string p)
       ∧ ((split sep s = [p] ∧ s = p)
          ∨ (∃ pre, s = pre +:+ String sep p)
            ∧ (2 ≤ length (split sep s))%nat).
Proof.
  induction s as [|c s (p & Hlast & Hno & Hcut)]; simpl.
  - exists "". split; [done|]. split; [apply not_elem_of_nil | by left].
  - pose proof (split_nonempty sep s) as Hne.
    destruct (Ascii.eqb_spec c sep) as [->|Hc].
    + exists p. rewrite (last_cons_nonempty _ _ Hne).
      split; [done|]. split; [done|]. right. split.
      * destruct Hcut as [[_ ->]|[[pre ->] _]];
          [by exists "" | by exists (String sep pre)].
      * destruct (split sep s); [done | simpl; lia].
    + destruct (split sep s) as [|piece pieces] eqn:Hs; [done|].
      destruct Hcut as [[[= -> ->] ->]|[[pre ->] Hlen]].
      * exists (String c p). split; [done|]. split; [|by left].
        simpl. by apply not_elem_of_cons.
      * exists p. simpl in Hlen.
        destruct pieces as [|piece' pieces']; [simpl in Hlen; lia|].
        rewrite last_cons_cons in Hlast |- *.
        split; [done|]. split; [done|]. right.
        split; [by exists (String c pre) | simpl; lia].
Qed.

Lemma chars_app s1 s2 :
  list_ascii_of_string (s1 +:+ s2)
  = (list_ascii_of_string s1 ++ list_ascii_of_string s2)%list.
Proof. induction s1 as [|c s1 IH]; simpl; [done|]. by rewrite IH. Qed.

Lemma trimEnd_no_trailing_space s : ∀ pre e,
  isWhiteSpace e = true → trimEnd s ≠ pre +:+ String e "".
Proof.
  induction s as [|c s IH]; intros pre e He; simpl.
  - by destruct pre.
  - destruct (trimEnd s) as [|d r] eqn:Hr.
    + destruct (isWhiteSpace c) eqn:Hc; [by destruct pre|].
      destruct pre as [|c' pre].
      * intros [= ->]. congruence.
      * intros [= _ H]. by destruct pre.
    + destruct pre as [|c' pre]; [done|].
      intros [= _ H]. by apply (IH pre e He).
Qed.

Section WithToUpperCase.
Context (toUpperCase : string → string).

(** X23.  [initials] never throws and never reads a missing unit.  When the
    trimmed name holds a space, the initials are the upper-cased pair of
    its first unit and the first unit after its last space, neither of
    them a space; otherwise they are the upper-cased first two units of
    the name as given, leading white space included. *)
Theorem initials_never_throws name :
  (" "%char ∈ list_ascii_of_string (trim name) →
   ∃ c rest pre d q,
     trim name = String c rest
     ∧ trim name = pre +:+ String " " (String d q)
     ∧ (" "%char ∉ list_ascii_of_string (String d q))
     ∧ isWhiteSpace c = false
     ∧ initials toUpperCase name
       = fulfilled (toUpperCase (String c (String d ""))))
  ∧ ((" "%char ∉ list_ascii_of_string (trim name)) →
     initials toUpperCase name
     = fulfilled (toUpperCase (substring 0 2 name))).
Proof.
  unfold initials.
  destruct (last_split_suffix " " (trim name)) as (p & Hlast & Hno & Hcut).
  split.
  - intros Hspace.
    destruct Hcut as [[_ Hp]|[[pre Hpre] Hlen]];
      [rewrite Hp in Hspace; contradiction|].
    destruct p as [|d q].
    { exfalso. unfold trim in Hpre.
      by apply (trimEnd_no_trailing_space _ pre " " eq_refl) in Hpre. }
    unfold trim in *.
    destruct (trimStart_cases name) as [[Hempty _]|(c & r & Hstart & Hc & _)].
    { rewrite Hempty in Hspace. simpl in Hspace. by apply elem_of_nil in Hspace. }
    rewrite Hstart in *.
    destruct (trimEnd_head c r Hc) as [rest Hrest].
    exists c, rest, pre, d, q.
    split; [done|]. split; [by rewrite <- Hpre|]. split; [done|].
    split; [done|].
    apply Nat.leb_le in Hlen. rewrite Hlen.
    rewrite Nat.sub_1_r, <- last_lookup, Hlast.
    rewrite Hrest in *. simpl.
    destruct (Ascii.eqb_spec c " ") as [->|_]; [discriminate|].
    pose proof (split_nonempty " " rest).
    by destruct (split " " rest).
  - intros Hnospace.
    destruct Hcut as [[Hone _]|[[pre Hpre] _]].
    + by rewrite Hone.
    + exfalso. apply Hnospace. rewrite Hpre, chars_app.
      apply elem_of_app. right. apply list_elem_of_here.
Qed.

End WithToUpperCase.

Example initials_of_two_words :
  initials (λ s, s) "  ada  lovelace " = fulfilled "al".
Proof. reflexivity. Qed.

Lemma initials_never_throws_witness :
  (∃ c rest pre d q,
     trim "  ada  lovelace " = String c rest
     ∧ trim "  ada  lovelace " = pre +:+ String " " (String d q)
     ∧ (" "%char ∉ list_ascii_of_string (String d q))
     ∧ isWhiteSpace c = false
     ∧ initials (λ s, s) "  ada  lovelace "
       = fulfilled (String c (String d "")))
  ∧ initials (λ s, s) " bob" = fulfilled " b".
Proof.
  split.
  - apply (proj1 (initials_never_throws (λ s, s) "  ada  lovelace ")).
    change (trim "  ada  lovelace ") with "ada  lovelace". simpl.
    do 3 apply list_elem_of_further. apply list_elem_of_here.
  - apply (proj2 (initials_never_throws (λ s, s) " bob")).
    change (trim " bob") with "bob". simpl.
    rewrite !not_elem_of_cons. repeat split; try discriminate.
    apply not_elem_of_nil.
Defined.

End LeaderboardFacts.

Section BountyFacts.
Import BountyView.

(** X24.  A task card shows the completed badge exactly when its progress
    label reads target out of target; the count of the label never
    exceeds the target, however far the counter has run past it. *)
Theorem done_iff_label_is_full (item : Task) :
  (done item = true ↔ shown item = target item)
  ∧ (shown item ≤ target item)%Z
  ∧ (shown item ≤ current item)%Z.
Proof.
  unfold done, shown. rewrite Z.leb_le. lia.
Qed.

End BountyFacts.

(** ** Logging out and the leaderboard list *)

Section LogoutFacts.
Import Js AsyncStorage ApiClient AuthContext ProfileForm.

(** X25.  Logging out from the profile screen, in any session: cancelling
    the confirmation changes nothing; confirming removes the token, leaves
    the context unauthenticated, and every request sent afterwards goes out
    with the header the caller gave it, none for a call that sets none;
    when the removal rejects the user stays logged in, store and context
    as before. *)
Theorem handleLogout_end_to_end st0 m0 acts :
  let w := session st0 m0 acts in
  handleLogout Cancel Healthy w = w
  ∧ (storage (handleLogout Confirm Healthy w) !! TOKEN_KEY = None
     ∧ context (handleLogout Confirm Healthy w) = expose unauthenticated
     ∧ ∀ (B : Type) m (c c' : config B),
         outbound m (storage (handleLogout Confirm Healthy w)) c = fulfilled c' →
         c' = c)
  ∧ (storage (handleLogout Confirm Faulty w) = storage w
     ∧ context (handleLogout Confirm Faulty w) = context w).
Proof.
  simpl. split; [reflexivity|]. split; [|by split].
  split; [apply lookup_delete_eq|].
  split; [by rewrite session_settled|].
  intros B m c c' Hsent.
  unfold outbound, request_interceptor in Hsent.
  destruct m; simpl in Hsent; [|discriminate].
  change "userToken" with TOKEN_KEY in Hsent.
  rewrite lookup_delete_eq in Hsent. by injection Hsent as <-.
Qed.

Lemma handleLogout_end_to_end_witness :
  let w := session ∅ Healthy [Login Healthy "tok123"] in
  let call := LoginScreen.login_request "a@x.edu" "p" in
  let untouched :=
    mkConfig "post" "auth/login/" ∅
             (Some (LoginScreen.mkCredentials "a@x.edu" "p")) in
  outbound Healthy (storage (handleLogout Confirm Healthy w)) call
  = fulfilled untouched
  ∧ untouched = call.
Proof.
  split; [reflexivity|].
  apply (proj2 (proj2 (proj1 (proj2 (handleLogout_end_to_end ∅ Healthy
           [Login Healthy "tok123"])))) _ Healthy
           (LoginScreen.login_request "a@x.edu" "p")).
  reflexivity.
Defined.

End LogoutFacts.

Section LeaderboardListFacts.
Import Js Ui LeaderboardList.

(** X26.  The leaderboard after a fetch: a fetch that fails keeps the rows
    that were shown, logs the error and stops the spinner, so a first fetch
    that fails renders the same notice as a leaderboard with no entries; a
    fetch that succeeds shows exactly the rows received, and the notice
    when there are none. *)
Theorem failed_fetch_looks_empty userToken error s rows :
  data (fst (fetchLeaderboard userToken (rejected error) s)) = data s
  ∧ snd (fetchLeaderboard userToken (rejected error) s)
    = [Fx.Call (LeaderboardScreen.fetchLeaderboard userToken); Fx.Log]
  ∧ render (fst (fetchLeaderboard userToken (rejected error) initial))
    = NobodyYet
  ∧ render (fst (fetchLeaderboard userToken (fulfilled []) s)) = NobodyYet
  ∧ (rows ≠ [] →
     render (fst (fetchLeaderboard userToken (fulfilled rows) s)) = Rows rows
     ∧ render (fst (fetchLeaderboard userToken (rejected error)
                      (fst (fetchLeaderboard userToken (fulfilled rows) s))))
       = Rows rows).
Proof.
  repeat split; try reflexivity; by destruct rows.
Qed.

Lemma failed_fetch_looks_empty_witness :
  let row := mkEntry 7 "Ada Lovelace" 120 1 in
  render (fst (fetchLeaderboard (Some "tok123") (fulfilled [row]) initial))
  = Rows [row]
  ∧ render (fst (fetchLeaderboard (Some "tok123") (rejected (mkApiError None))
                   (fst (fetchLeaderboard (Some "tok123") (fulfilled [row])
                           initial))))
    = Rows [row].
Proof.
  apply (proj2 (proj2 (proj2 (proj2 (failed_fetch_looks_empty (Some "tok123")
           (mkApiError None) initial [mkEntry 7 "Ada Lovelace" 120 1]))))).
  discriminate.
Defined.

End LeaderboardListFacts.
